(** * bq_c19: the statistical pipeline of [bigquery/bq_c19.py]

    A shallow embedding of the script: the two analytic SQL queries
    (window functions LAG, AVG, STDDEV, MAX), the pandas stages that
    follow them (clip, filter, groupby/sum, boolean-mask selection,
    left merge, sort) and the two assertions that guard the run.

    Conventions.
    - A table or DataFrame is a list of records, in row order.
    - SQL NULL, pandas <NA> and a float NaN that stands for a missing
      value are [None]; the masked per-capita column keeps <NA> apart
      from the NaN of 0/0.
    - INT64 / Int64 columns are [Z]; the pandas and numpy operations
      that can leave the 64-bit range (the monthly sum, the colour
      normalisation) wrap around.
    - The FLOAT64 z-score columns are ideal reals [R] (rounding is not
      modelled). A finite per-capita value is kept as the exact
      quotient of its two integers and ordered as the float64 it is
      stored as.
    - ORDER BY and [sort_values] are modelled by a stable insertion
      sort; the theorems only use that the result is a sorted
      permutation.
    - Lines 298-305 (request, JSON decoding, column selection, integer
      cast) enter as their result; rendering calls are events. *)

From Stdlib Require Import String ZArith List Bool Lia Permutation Sorted.
From Stdlib Require Import QArith Reals Lra.
From Stdlib Require SpecFloat.
Import ListNotations.

Local Open Scope Z_scope.
Local Open Scope list_scope.

(* ================================================================= *)
(** ** Generic table operations *)

Section TableOps.
Context {A : Type}.

(** Stable insertion sort under a boolean "comes no later than". *)
Fixpoint insert_by (leb : A -> A -> bool) (a : A) (l : list A) : list A :=
  match l with
  | [] => [a]
  | b :: l' => if leb a b then a :: b :: l' else b :: insert_by leb a l'
  end.

Fixpoint sort_by (leb : A -> A -> bool) (l : list A) : list A :=
  match l with
  | [] => []
  | a :: l' => insert_by leb a (sort_by leb l')
  end.

(** [Series.unique()]: distinct values in order of first appearance. *)
Fixpoint unique (eqb : A -> A -> bool) (l : list A) : list A :=
  match l with
  | [] => []
  | a :: l' => a :: filter (fun b => negb (eqb a b)) (unique eqb l')
  end.

(** The non-missing entries of a nullable column. *)
Fixpoint non_null (l : list (option A)) : list A :=
  match l with
  | [] => []
  | Some v :: l' => v :: non_null l'
  | None :: l' => non_null l'
  end.
End TableOps.

Definition Zsum (l : list Z) : Z := fold_right Z.add 0 l.

(** Maximum of a column; [None] on an empty one. *)
Definition Zmax_list (l : list Z) : option Z :=
  match l with
  | [] => None
  | a :: l' => Some (fold_left Z.max l' a)
  end.

(* ================================================================= *)
(** ** Calendar dates and monthly periods *)

Record Date := mkDate { year : Z; month : Z; day : Z }.

Definition date_leb (a b : Date) : bool :=
  (year a <? year b)
  || ((year a =? year b)
      && ((month a <? month b)
          || ((month a =? month b) && (day a <=? day b)))).

(** [dt.to_period("M")]: the (year, month) of a date. *)
Definition Period : Type := (Z * Z)%type.

Definition to_period_M (d : Date) : Period := (year d, month d).

Definition period_eqb (a b : Period) : bool :=
  (fst a =? fst b) && (snd a =? snd b).

Definition period_leb (a b : Period) : bool :=
  (fst a <? fst b) || ((fst a =? fst b) && (snd a <=? snd b)).

(* ================================================================= *)
(** ** The source table [bigquery-public-data.covid19_nyt.us_states] *)

Module UsStates.
(** The columns the two queries read. *)
Record row := mk {
  state_name : string;
  date : Date;
  confirmed_cases : Z;
  deaths : Z
}.

(** What [client.get_table] returns: the metadata the assertions
    inspect, and the rows the queries see. *)
Record table := mkTable {
  num_rows : Z;
  schema : list string;
  rows : list row
}.
End UsStates.

(* ================================================================= *)
(** ** First query, common table expression [us_states_day] *)

Module Day.
Record row := mk {
  state_name : string;
  date : Date;
  confirmed_cases : Z;
  deaths : Z;
  confirmed_cases_day : option Z;
  deaths_day : option Z
}.
End Day.

(** SQL subtraction on nullable INT64: NULL if either side is NULL. *)
Definition sql_sub (a b : option Z) : option Z :=
  match a, b with
  | Some x, Some y => Some (x - y)
  | _, _ => None
  end.

(** The window [PARTITION BY state_name ORDER BY date] of state [s]. *)
Definition window (t : list UsStates.row) (s : string) : list UsStates.row :=
  sort_by (fun a b => date_leb (UsStates.date a) (UsStates.date b))
          (filter (fun r => String.eqb (UsStates.state_name r) s) t).

(** [x - LAG(x)] along one ordered window; [prev] is the preceding row,
    absent at the start of the window, where LAG yields NULL. *)
Fixpoint lag_rows (prev : option UsStates.row) (p : list UsStates.row)
  : list Day.row :=
  match p with
  | [] => []
  | r :: p' =>
      Day.mk (UsStates.state_name r) (UsStates.date r)
             (UsStates.confirmed_cases r) (UsStates.deaths r)
             (sql_sub (Some (UsStates.confirmed_cases r))
                      (option_map UsStates.confirmed_cases prev))
             (sql_sub (Some (UsStates.deaths r))
                      (option_map UsStates.deaths prev))
      :: lag_rows (Some r) p'
  end.

Definition us_states_day (t : list UsStates.row) : list Day.row :=
  flat_map (fun s => lag_rows None (window t s))
           (unique String.eqb (map UsStates.state_name t)).

(** The rows of one state in the common table expression. *)
Definition day_rows_of (s : string) (d : list Day.row) : list Day.row :=
  filter (fun r => String.eqb (Day.state_name r) s) d.

(* ================================================================= *)
(** ** Cleaning: [Series.clip(lower=0)] on a nullable integer column *)

Definition clip_lower0 (x : option Z) : option Z := option_map (Z.max 0) x.

Definition clip_series (xs : list (option Z)) : list (option Z) :=
  map clip_lower0 xs.

(* ================================================================= *)
(** ** Errors and the script monad *)

Inductive exn :=
| AssertionError
| DivisionByZero
| ValueError
| KeyError
| FetchError.

Inductive outcome (A : Type) : Type :=
| Ok (a : A)
| Raise (e : exn).
Arguments Ok {A} a.
Arguments Raise {A} e.

Definition obind {A B} (m : outcome A) (f : A -> outcome B) : outcome B :=
  match m with
  | Ok a => f a
  | Raise e => Raise e
  end.

(** Evaluate a fallible row expression on every row, first error wins. *)
Fixpoint traverse {A B} (f : A -> outcome B) (l : list A) : outcome (list B) :=
  match l with
  | [] => Ok []
  | a :: l' =>
      obind (f a) (fun b => obind (traverse f l') (fun bs => Ok (b :: bs)))
  end.

(* ================================================================= *)
(** ** First query, outer SELECT: per-state z-scores *)

Module Data.
Record row := mk {
  date : Date;
  state_name : string;
  confirmed_cases_day : option Z;
  deaths_day : option Z;
  confirmed_cases_day_zscore : option R;
  deaths_day_zscore : option R
}.
End Data.

Definition Rsum (l : list R) : R := fold_right Rplus 0%R l.

(** Arithmetic mean of integer values, as a real. *)
Definition mean (vs : list Z) : R :=
  (Rsum (map IZR vs) / INR (length vs))%R.

(** Sum of squared deviations from the mean. *)
Definition sum_sq_dev (vs : list Z) : R :=
  Rsum (map (fun v => (IZR v - mean vs) * (IZR v - mean vs))%R vs).

(** Sample standard deviation, divisor [n - 1]. *)
Definition sample_stddev (vs : list Z) : R :=
  sqrt (sum_sq_dev vs / (INR (length vs) - 1)).

(** Population standard deviation, divisor [n]. *)
Definition population_stddev (vs : list Z) : R :=
  sqrt (sum_sq_dev vs / INR (length vs)).

(** [AVG]: NULL inputs are ignored; NULL when no input is left. *)
Definition AVG (col : list (option Z)) : option R :=
  match non_null col with
  | [] => None
  | vs => Some (mean vs)
  end.

(** [STDDEV] is BigQuery's alias of [STDDEV_SAMP]: the sample standard
    deviation of the non-NULL inputs, NULL on fewer than two of them. *)
Definition STDDEV (col : list (option Z)) : option R :=
  let vs := non_null col in
  if (length vs <? 2)%nat then None else Some (sample_stddev vs).

Definition NULLIF (x : option R) (y : R) : option R :=
  match x with
  | Some v => if Req_dec_T v y then None else Some v
  | None => None
  end.

(** INT64 minus FLOAT64. *)
Definition sql_subR (a : option Z) (b : option R) : option R :=
  match a, b with
  | Some x, Some y => Some (IZR x - y)%R
  | _, _ => None
  end.

(** FLOAT64 division: a zero divisor is a query error, a NULL operand
    gives NULL. *)
Definition sql_div (a b : option R) : outcome (option R) :=
  match b with
  | None => Ok None
  | Some y =>
      if Req_dec_T y 0%R then Raise DivisionByZero
      else Ok (option_map (fun x => (x / y)%R) a)
  end.

(** [(x - AVG(x) OVER w) / NULLIF(STDDEV(x) OVER w, 0)] for the value
    [v] of a row whose window has column [col]. *)
Definition zscore (v : option Z) (col : list (option Z)) : outcome (option R) :=
  sql_div (sql_subR v (AVG col)) (NULLIF (STDDEV col) 0%R).

Definition select_row (d : list Day.row) (r : Day.row) : outcome Data.row :=
  let w := day_rows_of (Day.state_name r) d in
  obind (zscore (Day.confirmed_cases_day r) (map Day.confirmed_cases_day w))
    (fun cz =>
  obind (zscore (Day.deaths_day r) (map Day.deaths_day w))
    (fun dz =>
  Ok (Data.mk (Day.date r) (Day.state_name r)
              (Day.confirmed_cases_day r) (Day.deaths_day r) cz dz))).

Definition query (t : list UsStates.row) : outcome (list Data.row) :=
  obind (traverse (select_row (us_states_day t)) (us_states_day t))
    (fun rows =>
  Ok (sort_by (fun a b => date_leb (Data.date a) (Data.date b)) rows)).

(* ================================================================= *)
(** ** Cleaning, the New York slice, monthly deaths, outliers *)

Definition clip_confirmed_cases_day (data : list Data.row) : list Data.row :=
  map (fun r => Data.mk (Data.date r) (Data.state_name r)
                        (clip_lower0 (Data.confirmed_cases_day r))
                        (Data.deaths_day r)
                        (Data.confirmed_cases_day_zscore r)
                        (Data.deaths_day_zscore r)) data.

Definition clip_deaths_day (data : list Data.row) : list Data.row :=
  map (fun r => Data.mk (Data.date r) (Data.state_name r)
                        (Data.confirmed_cases_day r)
                        (clip_lower0 (Data.deaths_day r))
                        (Data.confirmed_cases_day_zscore r)
                        (Data.deaths_day_zscore r)) data.

(** Lines 107-108. *)
Definition clean (data : list Data.row) : list Data.row :=
  clip_deaths_day (clip_confirmed_cases_day data).

Module Ny.
(** A row of [ny_data]: the row of [data] with the added month column. *)
Record row := mk { base : Data.row; month : Period }.
End Ny.

(** Lines 111-115 for a state [s]; the script takes "New York". *)
Definition state_data (s : string) (data : list Data.row) : list Ny.row :=
  map (fun r => Ny.mk r (to_period_M (Data.date r)))
      (sort_by (fun a b => date_leb (Data.date a) (Data.date b))
               (filter (fun r => String.eqb (Data.state_name r) s) data)).

Definition ny_data (data : list Data.row) : list Ny.row :=
  state_data "New York" data.

(** Two's-complement wrap-around of a signed 64-bit integer. *)
Definition wrap64 (z : Z) : Z := (z + 2 ^ 63) mod 2 ^ 64 - 2 ^ 63.

(** [Series.sum()] on a nullable Int64 column: missing entries are
    skipped, and the int64 accumulator wraps around. *)
Definition sum_skipna (col : list (option Z)) : Z :=
  wrap64 (Zsum (non_null col)).

Definition Ny_deaths_day (r : Ny.row) : option Z := Data.deaths_day (Ny.base r).

(** The rows of one month. *)
Definition month_group (m : Period) (ny : list Ny.row) : list Ny.row :=
  filter (fun r => period_eqb (Ny.month r) m) ny.

(** [groupby("month")["deaths_day"].sum().reset_index()]: one row per
    month that occurs, in chronological order. *)
Definition monthly_deaths (ny : list Ny.row) : list (Period * Z) :=
  map (fun m => (m, sum_skipna (map Ny_deaths_day (month_group m ny))))
      (sort_by period_leb (unique period_eqb (map Ny.month ny))).

Definition upper_bound : R := 3%R.
Definition lower_bound : R := (-3)%R.

(** Element-wise [series > b] and [series < b]; a missing value
    compares false. *)
Definition gt_mask (z : option R) (b : R) : bool :=
  match z with
  | Some v => if Rgt_dec v b then true else false
  | None => false
  end.

Definition lt_mask (z : option R) (b : R) : bool :=
  match z with
  | Some v => if Rlt_dec v b then true else false
  | None => false
  end.

Definition Ny_cases_zscore (r : Ny.row) : option R :=
  Data.confirmed_cases_day_zscore (Ny.base r).
Definition Ny_deaths_zscore (r : Ny.row) : option R :=
  Data.deaths_day_zscore (Ny.base r).

Definition outliers (ny : list Ny.row) : list Ny.row :=
  filter (fun r => gt_mask (Ny_cases_zscore r) upper_bound
                   || lt_mask (Ny_cases_zscore r) lower_bound) ny.

Definition outliers_deaths (ny : list Ny.row) : list Ny.row :=
  filter (fun r => gt_mask (Ny_deaths_zscore r) upper_bound
                   || lt_mask (Ny_deaths_zscore r) lower_bound) ny.

(* ================================================================= *)
(** ** Second query: the within-month maximum of the cumulative count *)

Module Peak.
Record row := mk {
  state_name : string;
  date : Date;
  year : Z;
  month : Z;
  highest_monthly_confirmed_cases : Z
}.
End Peak.

(** [MAX(confirmed_cases) OVER (PARTITION BY state_name, year, month)]
    at row [r]; the row belongs to its own partition, so the maximum
    can start from its value. *)
Definition month_window_max (t : list UsStates.row) (r : UsStates.row) : Z :=
  fold_left Z.max
    (map UsStates.confirmed_cases
       (filter (fun x =>
                  String.eqb (UsStates.state_name x) (UsStates.state_name r)
                  && (year (UsStates.date x) =? year (UsStates.date r))
                  && (month (UsStates.date x) =? month (UsStates.date r))) t))
    (UsStates.confirmed_cases r).

Definition sql_query (t : list UsStates.row) : list Peak.row :=
  map (fun r => Peak.mk (UsStates.state_name r) (UsStates.date r)
                        (year (UsStates.date r)) (month (UsStates.date r))
                        (month_window_max t r)) t.

Definition GroupKey : Type := (string * Z * Z)%type.

Definition group_key (r : Peak.row) : GroupKey :=
  (Peak.state_name r, Peak.year r, Peak.month r).

Definition key_eqb (a b : GroupKey) : bool :=
  String.eqb (fst (fst a)) (fst (fst b))
  && (snd (fst a) =? snd (fst b)) && (snd a =? snd b).

(** Lexicographic order on (state_name, year, month). *)
Definition key_leb (a b : GroupKey) : bool :=
  String.ltb (fst (fst a)) (fst (fst b))
  || (String.eqb (fst (fst a)) (fst (fst b))
      && ((snd (fst a) <? snd (fst b))
          || ((snd (fst a) =? snd (fst b)) && (snd a <=? snd b)))).

Definition date_max (a b : Date) : Date := if date_leb a b then b else a.

(** Column-wise maximum of a non-empty group of rows sharing a key. *)
Definition group_max (k : GroupKey) (g : list Peak.row) : list Peak.row :=
  match g with
  | [] => []
  | r :: g' =>
      [Peak.mk (fst (fst k))
               (fold_left date_max (map Peak.date g') (Peak.date r))
               (snd (fst k)) (snd k)
               (fold_left Z.max (map Peak.highest_monthly_confirmed_cases g')
                          (Peak.highest_monthly_confirmed_cases r))]
  end.

(** Line 255: [groupby(["state_name","year","month"]).max().reset_index()],
    one row per key that occurs, keys in sorted order. *)
Definition groupby_month_max (d : list Peak.row) : list Peak.row :=
  flat_map (fun k => group_max k (filter (fun r => key_eqb (group_key r) k) d))
           (sort_by key_leb (unique key_eqb (map group_key d))).

(** Line 258: sort descending by the monthly maximum. *)
Definition sort_by_highest (d : list Peak.row) : list Peak.row :=
  sort_by (fun a b => Peak.highest_monthly_confirmed_cases b
                      <=? Peak.highest_monthly_confirmed_cases a) d.

(** Lines 260-264: the insertion-ordered dict {state: all-time peak}. *)
Definition states_and_highest_month (d : list Peak.row) : list (string * Z) :=
  flat_map
    (fun s =>
       match Zmax_list (map Peak.highest_monthly_confirmed_cases
                            (filter (fun r => String.eqb (Peak.state_name r) s) d))
       with
       | Some m => [(s, m)]
       | None => []
       end)
    (unique String.eqb (map Peak.state_name d)).

(* ================================================================= *)
(** ** Population reference data, left merge, per-capita column *)

Module Pop.
Record row := mk { state_name : string; population : Z }.
End Pop.

Module Merged.
(** A row of the merge: the left row and the joined column, missing
    when no right row has the key. *)
Record row := mk { left : Peak.row; population : option Z }.
End Merged.

(** [left.merge(right, how="left", on="state_name")]: every left row, in
    left order, once per matching right row, or once with a missing
    right side. *)
Definition merge_left (l : list Peak.row) (r : list Pop.row) : list Merged.row :=
  flat_map
    (fun x =>
       match filter (fun p => String.eqb (Pop.state_name p) (Peak.state_name x)) r
       with
       | [] => [Merged.mk x None]
       | ms => map (fun p => Merged.mk x (Some (Pop.population p))) ms
       end) l.

(** An entry of the masked Float64 per-capita column: a float64 value
    (a finite one is kept as the exact quotient of its two integers),
    or the masked entry <NA>. *)
Inductive float :=
| Finite (q : Q)
| PosInf
| NegInf
| NaN
| NA.

(** Integer column divided by the (float) population column. *)
Definition true_div (c : Z) (p : option Z) : float :=
  match p with
  | None => NA
  | Some 0 => if 0 <? c then PosInf else if c <? 0 then NegInf else NaN
  | Some p' => Finite (inject_Z c / inject_Z p')
  end.

Module PerCapita.
Record row := mk {
  merged : Merged.row;
  highest_monthly_confirmed_cases_per_capita : float
}.
End PerCapita.

(** Lines 309-311. *)
Definition add_per_capita (d : list Merged.row) : list PerCapita.row :=
  map (fun m =>
         PerCapita.mk m
           (true_div (Peak.highest_monthly_confirmed_cases (Merged.left m))
                     (Merged.population m))) d.

(** An int64 as a float64, rounded to nearest even. *)
Definition float64_of_Z (z : Z) : SpecFloat.spec_float :=
  SpecFloat.binary_normalize 53 1024 z 0 false.

(** The rational a finite float64 denotes. *)
Definition SF2Q (f : SpecFloat.spec_float) : Q :=
  match f with
  | SpecFloat.S754_finite s m e =>
      inject_Z (if s then Z.neg m else Z.pos m) * Qpower 2 e
  | _ => 0
  end.

(** The float64 a quotient of two integers is stored as: both are
    converted to float64 and divided, each step rounding to nearest
    even. *)
Definition double_quotient (q : Q) : Q :=
  SF2Q (SpecFloat.SFdiv 53 1024 (float64_of_Z (Qnum q))
                        (float64_of_Z (Z.pos (Qden q)))).

(** [a >= b] on float64 numbers, finite ones compared as the float64
    they are stored as; false on NaN and on <NA>. *)
Definition float_geb (a b : float) : bool :=
  match a, b with
  | NaN, _ | _, NaN | NA, _ | _, NA => false
  | PosInf, _ => true
  | _, NegInf => true
  | NegInf, _ => false
  | _, PosInf => false
  | Finite x, Finite y => Qle_bool (double_quotient y) (double_quotient x)
  end.

(** Row order of [sort_values(ascending=False)] on the masked column:
    the masked entries <NA> go last; the values are taken in numpy's
    ascending order reversed, which puts a NaN value first. *)
Definition desc_na_last (a b : float) : bool :=
  match a, b with
  | _, NA => true
  | NA, _ => false
  | NaN, _ => true
  | _, NaN => false
  | _, _ => float_geb a b
  end.

(** Line 314. *)
Definition sort_by_per_capita (d : list PerCapita.row) : list PerCapita.row :=
  sort_by (fun a b =>
             desc_na_last (PerCapita.highest_monthly_confirmed_cases_per_capita a)
                           (PerCapita.highest_monthly_confirmed_cases_per_capita b))
          d.

(** Lines 240-258: [data2] before the population step. *)
Definition data2_peaks (t : list UsStates.row) : list Peak.row :=
  sort_by_highest (groupby_month_max (sql_query t)).

(** Lines 308-314: [data2] at the end of the script. *)
Definition data2 (t : list UsStates.row) (pop_per_state : list Pop.row)
  : list PerCapita.row :=
  sort_by_per_capita (add_per_capita (merge_left (data2_peaks t) pop_per_state)).

(* ================================================================= *)
(** ** Colour normalisation of the peak chart, lines 271-274 *)

(** Minimum of a column; [None] on an empty one. *)
Definition Zmin_list (l : list Z) : option Z :=
  match l with
  | [] => None
  | a :: l' => Some (fold_left Z.min l' a)
  end.

(** [(values - values.min()) / (values.max() - values.min())] on an
    int64 array: the reductions raise ValueError on a zero-size array,
    the subtractions wrap around, the division is element-wise true
    division with 0/0 = NaN. *)
Definition normalized_values (values : list Z) : outcome (list float) :=
  match Zmin_list values, Zmax_list values with
  | Some mn, Some mx =>
      Ok (map (fun v => true_div (wrap64 (v - mn)) (Some (wrap64 (mx - mn))))
              values)
  | _, _ => Raise ValueError
  end.

(** Lines 298-305 as the pipeline sees them. The payload is [None] when
    the request, the JSON decoding or the integer cast raised, and
    otherwise the (State, Population) records of its data array;
    selecting the two columns of a frame built from no record raises
    KeyError (line 303). *)
Definition read_population (payload : option (list Pop.row))
  : outcome (list Pop.row) :=
  match payload with
  | None => Raise FetchError
  | Some [] => Raise KeyError
  | Some rows => Ok rows
  end.

(* ================================================================= *)
(** ** The script, top to bottom *)

(** What the run does to the outside world, in order. *)
Inductive event :=
| PrintPreview
| RunQuery
| ClipNegatives
| MonthlyAggregation
| OutlierDetection
| RunSqlQuery
| PeakPerState
| FetchPopulation
| MergePopulation
| Plot (title : string).

(** A run: the events so far and the value or the exception raised. *)
Definition M (A : Type) : Type := (list event * outcome A)%type.

Definition ret {A} (a : A) : M A := ([], Ok a).

Definition bind {A B} (m : M A) (f : A -> M B) : M B :=
  match m with
  | (tr, Ok a) => let (tr', r) := f a in (tr ++ tr', r)
  | (tr, Raise e) => (tr, Raise e)
  end.

Definition tell (e : event) : M unit := ([e], Ok tt).

Definition assert_ (b : bool) : M unit :=
  ([], if b then Ok tt else Raise AssertionError).

Definition lift {A} (o : outcome A) : M A := ([], o).

Declare Scope script_scope.
Delimit Scope script_scope with script.
Notation "x <- m ;; k" := (bind m (fun x => k))
  (at level 61, m at next level, right associativity) : script_scope.
Notation "m ;; k" := (bind m (fun _ => k))
  (at level 61, right associativity) : script_scope.

Record Outputs := mkOutputs {
  out_monthly_deaths : list (Period * Z);
  out_outliers : list Ny.row;
  out_outliers_deaths : list Ny.row;
  out_states_and_highest_month : list (string * Z);
  out_data2 : list PerCapita.row
}.

(** The transformation stages, lines 45-314, on a table that passed
    the assertions. Rendering calls are recorded as events only; what
    matplotlib or seaborn may raise is outside the model. *)
Definition pipeline (t : list UsStates.row) (payload : option (list Pop.row))
  : M Outputs :=
  (tell RunQuery ;;
   data <- lift (query t) ;;
   tell ClipNegatives ;;
   let data := clean data in
   let ny := ny_data data in
   tell MonthlyAggregation ;;
   let md := monthly_deaths ny in
   tell (Plot "Monthly Aggregate Deaths in New York") ;;
   tell (Plot "Deaths and Cases Z-Score for New York") ;;
   tell OutlierDetection ;;
   let o := outliers ny in
   let od := outliers_deaths ny in
   tell (Plot "Confirmed Cases and Deaths w/ Anomalies (Z +- 3) for New York") ;;
   tell RunSqlQuery ;;
   let d2 := data2_peaks t in
   tell PeakPerState ;;
   let dict := states_and_highest_month d2 in
   lift (normalized_values (map snd dict)) ;;
   tell (Plot "Highest Monthly Confirmed Cases by State") ;;
   tell FetchPopulation ;;
   pop_per_state <- lift (read_population payload) ;;
   tell MergePopulation ;;
   let d2' := data2 t pop_per_state in
   tell (Plot "Highest Monthly Confirmed Cases by State per Capita") ;;
   ret (mkOutputs md o od dict d2'))%script.

(** Lines 33-42 and then the pipeline. *)
Definition script (table : UsStates.table) (payload : option (list Pop.row))
  : M Outputs :=
  (tell PrintPreview ;;
   assert_ (UsStates.num_rows table =? 61942) ;;
   assert_ (Z.of_nat (length (UsStates.schema table)) =? 5) ;;
   pipeline (UsStates.rows table) payload)%script.

(** The events that belong to a transformation stage. *)
Definition is_transformation (e : event) : bool :=
  match e with
  | PrintPreview => false
  | _ => true
  end.

(* ================================================================= *)
(** ** Derived notions used by the statements *)

(** Number of non-missing entries of a column. *)
Definition defined_count {A} (col : list (option A)) : nat :=
  length (non_null col).

(** The daily records of one state, in table order. *)
Definition daily_records (t : list UsStates.row) (s : string)
  : list UsStates.row :=
  filter (fun r => String.eqb (UsStates.state_name r) s) t.

(** The value [zscore] returns (see [zscore_total]). *)
Definition zscore_value (v : option Z) (col : list (option Z)) : option R :=
  match sql_subR v (AVG col), NULLIF (STDDEV col) 0%R with
  | Some x, Some y => Some (x / y)%R
  | _, _ => None
  end.

Definition select_row_value (d : list Day.row) (r : Day.row) : Data.row :=
  let w := day_rows_of (Day.state_name r) d in
  Data.mk (Day.date r) (Day.state_name r)
          (Day.confirmed_cases_day r) (Day.deaths_day r)
          (zscore_value (Day.confirmed_cases_day r)
                        (map Day.confirmed_cases_day w))
          (zscore_value (Day.deaths_day r) (map Day.deaths_day w)).

(** The rows [query] returns (see [query_total]). *)
Definition query_rows (t : list UsStates.row) : list Data.row :=
  sort_by (fun a b => date_leb (Data.date a) (Data.date b))
          (map (select_row_value (us_states_day t)) (us_states_day t)).

(** The defined deltas of a state over its whole history. *)
Definition state_cases_deltas (t : list UsStates.row) (s : string) : list Z :=
  non_null (map Day.confirmed_cases_day (day_rows_of s (us_states_day t))).

Definition state_deaths_deltas (t : list UsStates.row) (s : string) : list Z :=
  non_null (map Day.deaths_day (day_rows_of s (us_states_day t))).

(** [(v - mean) / sigma] with the sample standard deviation; missing on
    fewer than two values or a zero deviation. *)
Definition sample_zscore (v : Z) (ds : list Z) : option R :=
  if (length ds <? 2)%nat then None
  else if Req_dec_T (sample_stddev ds) 0%R then None
  else Some ((IZR v - mean ds) / sample_stddev ds)%R.

(** The same with the population standard deviation. *)
Definition population_zscore (v : Z) (ds : list Z) : option R :=
  if Req_dec_T (population_stddev ds) 0%R then None
  else Some ((IZR v - mean ds) / population_stddev ds)%R.

(** A missing value read as a contribution of 0. *)
Definition or_zero (x : option Z) : Z :=
  match x with
  | Some v => v
  | None => 0
  end.

(** The events of a run of [pipeline], in order. *)
Definition pipeline_events : list event :=
  [ RunQuery; ClipNegatives; MonthlyAggregation;
    Plot "Monthly Aggregate Deaths in New York";
    Plot "Deaths and Cases Z-Score for New York";
    OutlierDetection;
    Plot "Confirmed Cases and Deaths w/ Anomalies (Z +- 3) for New York";
    RunSqlQuery; PeakPerState;
    Plot "Highest Monthly Confirmed Cases by State";
    FetchPopulation; MergePopulation;
    Plot "Highest Monthly Confirmed Cases by State per Capita" ].

(** The tables a run of [pipeline] ends with. *)
Definition pipeline_outputs (t : list UsStates.row) (pop_per_state : list Pop.row)
  : Outputs :=
  let ny := ny_data (clean (query_rows t)) in
  mkOutputs (monthly_deaths ny) (outliers ny) (outliers_deaths ny)
            (states_and_highest_month (data2_peaks t))
            (data2 t pop_per_state).

(* ================================================================= *)
(** ** A worked example *)

(** Four consecutive days of one state, with a downward revision of
    both counters on the third day. *)
Definition example_ny : list UsStates.row :=
  [ UsStates.mk "New York" (mkDate 2020 3 30) 1000 100;
    UsStates.mk "New York" (mkDate 2020 3 31) 1010 105;
    UsStates.mk "New York" (mkDate 2020 4 1) 1005 103;
    UsStates.mk "New York" (mkDate 2020 4 2) 1030 110 ].

(** The first day of the example as a row of [ny_data]: no delta, hence
    no z-score. *)
Definition example_first_row : Ny.row :=
  Ny.mk (Data.mk (mkDate 2020 3 30) "New York" None None None None) (2020, 3).

Definition example_schema : list string :=
  ["state_name"; "state_fips_code"; "date"; "confirmed_cases"; "deaths"]%string.

(** A table whose reported row count is not the expected one. *)
Definition example_table_short : UsStates.table :=
  UsStates.mkTable 4 example_schema example_ny.

(** A table whose metadata match both expected constants. *)
Definition example_table_expected : UsStates.table :=
  UsStates.mkTable 61942 example_schema example_ny.

Definition example_pop : list Pop.row := [Pop.mk "New York" 20000000].



(** Population data that has no record for the state of the example. *)
Definition example_pop_texas : list Pop.row := [Pop.mk "Texas" 29000000].

(** The row of March 2020 in the peak table of the example. *)
Definition example_march_peak : Peak.row :=
  Peak.mk "New York" (mkDate 2020 3 31) 2020 3 1010.

(** The row of April 2020, the state's all-time peak. *)
Definition example_april_peak : Peak.row :=
  Peak.mk "New York" (mkDate 2020 4 2) 2020 4 1030.

(** A row of [ny_data] with a case z-score of 4 and a death z-score of 0. *)
Definition example_spike_row : Ny.row :=
  Ny.mk (Data.mk (mkDate 2020 4 2) "New York" (Some 25) (Some 7)
                 (Some 4%R) (Some 0%R)) (2020, 4).

(* ================================================================= *)
(** ** Further notions used by the statements *)

Definition is_missing {A} (x : option A) : bool :=
  match x with
  | None => true
  | Some _ => false
  end.

(** [Series.isnull().sum()], the check of lines 89-97. *)
Definition null_count {A} (col : list (option A)) : nat :=
  length (filter is_missing col).

(** The (state, date) key of a row, in the table and in the query result. *)
Definition table_key (r : UsStates.row) : string * Date :=
  (UsStates.state_name r, UsStates.date r).

Definition day_key (r : Day.row) : string * Date :=
  (Day.state_name r, Day.date r).

Definition data_key (r : Data.row) : string * Date :=
  (Data.state_name r, Data.date r).

(** The rows of one state in the query result. *)
Definition data_rows_of (s : string) (data : list Data.row) : list Data.row :=
  filter (fun r => String.eqb (Data.state_name r) s) data.

(** The defined z-scores of a state. *)
Definition state_cases_zscores (t : list UsStates.row) (s : string) : list R :=
  non_null (map Data.confirmed_cases_day_zscore (data_rows_of s (query_rows t))).

Definition state_deaths_zscores (t : list UsStates.row) (s : string) : list R :=
  non_null (map Data.deaths_day_zscore (data_rows_of s (query_rows t))).

(** Two table rows of the same state, year and month. *)
Definition same_month (a b : UsStates.row) : bool :=
  String.eqb (UsStates.state_name a) (UsStates.state_name b)
  && (year (UsStates.date a) =? year (UsStates.date b))
  && (month (UsStates.date a) =? month (UsStates.date b)).

(** The (state, year, month) key of a table row. *)
Definition month_key (r : UsStates.row) : GroupKey :=
  (UsStates.state_name r, year (UsStates.date r), month (UsStates.date r)).

(** The entry of state [s] in the dict of lines 260-264, if [s] has a
    row in [d]. *)
Definition dict_entry (d : list Peak.row) (s : string) : list (string * Z) :=
  match Zmax_list (map Peak.highest_monthly_confirmed_cases
                       (filter (fun r => String.eqb (Peak.state_name r) s) d))
  with
  | Some m => [(s, m)]
  | None => []
  end.

(** The population records that match a peak row in the merge. *)
Definition pop_matches (pop : list Pop.row) (x : Peak.row) : list Pop.row :=
  filter (fun p => String.eqb (Pop.state_name p) (Peak.state_name x)) pop.

(** A point of the anomaly scatter plot, lines 194-205: the date of an
    outlier row and its z-score. *)
Definition cases_point (x : Ny.row) : Date * option R :=
  (Data.date (Ny.base x), Ny_cases_zscore x).

Definition deaths_point (x : Ny.row) : Date * option R :=
  (Data.date (Ny.base x), Ny_deaths_zscore x).

(** Twelve days of one state: cases flat for eleven days, then a jump
    of 11; deaths flat throughout. *)
Definition example_jump : list UsStates.row :=
  map (fun d => UsStates.mk "New York" (mkDate 2020 3 d)
                            (if d =? 12 then 11 else 0) 0)
      [1; 2; 3; 4; 5; 6; 7; 8; 9; 10; 11; 12].

(* ================================================================= *)
(** ** The printed extremes, lines 214-217 *)

(** Row order of [sort_values(by=z, ascending=False)]: larger values
    first, missing values last. *)
Definition zscore_desc (a b : option R) : bool :=
  match a, b with
  | _, None => true
  | None, Some _ => false
  | Some x, Some y => if Rle_dec y x then true else false
  end.

(** Row order of [sort_values(by=z, ascending=True)]: smaller values
    first, missing values last. *)
Definition zscore_asc (a b : option R) : bool :=
  match a, b with
  | _, None => true
  | None, Some _ => false
  | Some x, Some y => if Rle_dec x y then true else false
  end.

(** [DataFrame.head()]: the first five rows. *)
Definition head {A} (l : list A) : list A := firstn 5 l.

Definition highest_cases_zscores (ny : list Ny.row) : list Ny.row :=
  head (sort_by (fun a b => zscore_desc (Ny_cases_zscore a) (Ny_cases_zscore b)) ny).

Definition lowest_cases_zscores (ny : list Ny.row) : list Ny.row :=
  head (sort_by (fun a b => zscore_asc (Ny_cases_zscore a) (Ny_cases_zscore b)) ny).

Definition highest_deaths_zscores (ny : list Ny.row) : list Ny.row :=
  head (sort_by (fun a b => zscore_desc (Ny_deaths_zscore a) (Ny_deaths_zscore b)) ny).

Definition lowest_deaths_zscores (ny : list Ny.row) : list Ny.row :=
  head (sort_by (fun a b => zscore_asc (Ny_deaths_zscore a) (Ny_deaths_zscore b)) ny).

(** The cleaned death delta of a row: a negative delta counts 0, a
    missing one counts 0. *)
Definition cleaned_deaths (r : Data.row) : Z :=
  match Data.deaths_day r with
  | Some v => if v <? 0 then 0 else v
  | None => 0
  end.

(** Whether the date of a row falls in the month [m] = (year, month). *)
Definition in_month (m : Period) (r : Data.row) : bool :=
  (year (Data.date r) =? fst m) && (month (Data.date r) =? snd m).

(** Four days of one state in one month whose death counter jumps by
    6 * 10^18 twice. *)
Definition example_overflow : list UsStates.row :=
  [ UsStates.mk "New York" (mkDate 2020 3 1) 0 0;
    UsStates.mk "New York" (mkDate 2020 3 2) 0 6000000000000000000;
    UsStates.mk "New York" (mkDate 2020 3 3) 0 0;
    UsStates.mk "New York" (mkDate 2020 3 4) 0 6000000000000000000 ].

(* ================================================================= *)
(** * Properties *)

(** ** Sorting and distinct values *)

Section SortFacts.
Context {A : Type} (leb : A -> A -> bool).

Lemma insert_by_perm a l : Permutation (insert_by leb a l) (a :: l).
Proof.
  induction l as [|b l IH]; simpl; [reflexivity|].
  destruct (leb a b); [reflexivity|].
  rewrite IH. apply perm_swap.
Qed.

Lemma sort_by_perm l : Permutation (sort_by leb l) l.
Proof.
  induction l as [|a l IH]; simpl; [constructor|].
  rewrite insert_by_perm. now constructor.
Qed.

Lemma sort_by_In x l : In x (sort_by leb l) <-> In x l.
Proof.
  split; apply Permutation_in; [|symmetry]; apply sort_by_perm.
Qed.

Lemma sort_by_length l : length (sort_by leb l) = length l.
Proof. apply Permutation_length, sort_by_perm. Qed.

Hypothesis leb_total : forall a b, leb a b = true \/ leb b a = true.

Lemma insert_by_sorted a l :
  Sorted (fun x y => leb x y = true) l ->
  Sorted (fun x y => leb x y = true) (insert_by leb a l).
Proof.
  induction l as [|b l IH]; simpl; intros Hs.
  - repeat constructor.
  - destruct (leb a b) eqn:Hab.
    + constructor; [assumption|]. now constructor.
    + inversion Hs as [|? ? Hs' Hhd]; subst.
      constructor; [now apply IH|].
      destruct l as [|c l]; simpl.
      * constructor. destruct (leb_total a b); congruence.
      * destruct (leb a c).
        -- constructor. destruct (leb_total a b); congruence.
        -- inversion Hhd; subst. now constructor.
Qed.

Lemma sort_by_sorted l : Sorted (fun x y => leb x y = true) (sort_by leb l).
Proof.
  induction l as [|a l IH]; simpl; [constructor|].
  now apply insert_by_sorted.
Qed.
End SortFacts.

Section UniqueFacts.
Context {A : Type} (eqb : A -> A -> bool).
Hypothesis eqb_spec : forall a b, eqb a b = true <-> a = b.

Lemma unique_In x l : In x (unique eqb l) <-> In x l.
Proof.
  induction l as [|a l IH]; simpl; [tauto|].
  rewrite filter_In, IH. split.
  - tauto.
  - intros [->|Hx]; [now left|].
    destruct (eqb a x) eqn:E.
    + left. now apply eqb_spec.
    + right. now split.
Qed.

Lemma unique_NoDup l : NoDup (unique eqb l).
Proof.
  induction l as [|a l IH]; simpl; constructor.
  - rewrite filter_In. intros [_ H].
    assert (eqb a a = true) as E by now apply eqb_spec.
    now rewrite E in H.
  - now apply NoDup_filter.
Qed.
End UniqueFacts.

Lemma date_leb_total a b : date_leb a b = true \/ date_leb b a = true.
Proof.
  unfold date_leb.
  destruct (Z.ltb_spec (year a) (year b)), (Z.ltb_spec (year b) (year a)),
    (Z.eqb_spec (year a) (year b)), (Z.eqb_spec (year b) (year a)),
    (Z.ltb_spec (month a) (month b)), (Z.ltb_spec (month b) (month a)),
    (Z.eqb_spec (month a) (month b)), (Z.eqb_spec (month b) (month a)),
    (Z.leb_spec (day a) (day b)), (Z.leb_spec (day b) (day a));
    simpl; auto; lia.
Qed.

Lemma period_eqb_spec a b : period_eqb a b = true <-> a = b.
Proof.
  destruct a as [y m], b as [y' m']. unfold period_eqb; simpl.
  rewrite andb_true_iff, !Z.eqb_eq. split.
  - now intros [-> ->].
  - intros [= -> ->]. now split.
Qed.

(** ** The windows of the first query *)

Lemma window_perm t s :
  Permutation (window t s)
    (filter (fun r => String.eqb (UsStates.state_name r) s) t).
Proof. apply sort_by_perm. Qed.

Lemma window_state t s u : In u (window t s) -> UsStates.state_name u = s.
Proof.
  intros H. apply (Permutation_in _ (window_perm t s)) in H.
  apply filter_In in H. now apply String.eqb_eq.
Qed.

Lemma window_absent t s :
  ~ In s (map UsStates.state_name t) -> window t s = [].
Proof.
  intros H. destruct (window t s) as [|u w] eqn:E; [reflexivity|].
  exfalso. apply H.
  assert (In u (window t s)) as Hu by (rewrite E; now left).
  pose proof (window_state _ _ _ Hu) as <-.
  apply (Permutation_in _ (window_perm t _)) in Hu.
  apply filter_In in Hu. now apply in_map.
Qed.

Lemma lag_rows_state prev p r :
  In r (lag_rows prev p) ->
  exists u, In u p /\ Day.state_name r = UsStates.state_name u.
Proof.
  revert prev. induction p as [|u p IH]; simpl; intros prev H; [tauto|].
  destruct H as [<-|H].
  - exists u. now split; [left|].
  - destruct (IH _ H) as (u' & Hu & E). exists u'. now split; [right|].
Qed.

Lemma lag_rows_length prev p : length (lag_rows prev p) = length p.
Proof. revert prev. induction p; simpl; intros; [|rewrite IHp]; reflexivity. Qed.

Lemma filter_all {A} (f : A -> bool) l :
  (forall x, In x l -> f x = true) -> filter f l = l.
Proof.
  induction l as [|a l IH]; simpl; intros H; [reflexivity|].
  rewrite (H a (or_introl eq_refl)), IH; auto.
Qed.

Lemma filter_none {A} (f : A -> bool) l :
  (forall x, In x l -> f x = false) -> filter f l = [].
Proof.
  induction l as [|a l IH]; simpl; intros H; [reflexivity|].
  rewrite (H a (or_introl eq_refl)), IH; auto.
Qed.

Lemma day_rows_of_window t s s' :
  day_rows_of s (lag_rows None (window t s'))
  = if String.eqb s' s then lag_rows None (window t s') else [].
Proof.
  unfold day_rows_of. destruct (String.eqb_spec s' s) as [->|Hne].
  - apply filter_all. intros r Hr.
    apply lag_rows_state in Hr as (u & Hu & ->).
    apply String.eqb_eq. now apply window_state in Hu.
  - apply filter_none. intros r Hr.
    apply lag_rows_state in Hr as (u & Hu & ->).
    apply window_state in Hu. now apply String.eqb_neq; rewrite Hu.
Qed.

Lemma day_rows_of_flat_map t s ks :
  NoDup ks ->
  day_rows_of s (flat_map (fun s' => lag_rows None (window t s')) ks)
  = if in_dec string_dec s ks then lag_rows None (window t s) else [].
Proof.
  induction 1 as [|k ks Hk Hnd IH]; simpl; [reflexivity|].
  unfold day_rows_of in *. rewrite filter_app, IH.
  fold (day_rows_of s (lag_rows None (window t k))).
  rewrite day_rows_of_window.
  destruct (String.eqb_spec k s) as [->|Hne].
  - destruct (string_dec s s); [|congruence].
    destruct (in_dec string_dec s ks); [contradiction|]. apply app_nil_r.
  - destruct (string_dec k s); [congruence|].
    now destruct (in_dec string_dec s ks).
Qed.

(** The rows of a state in [us_states_day] are the LAG rows of its window. *)
Lemma day_rows_of_us_states_day t s :
  day_rows_of s (us_states_day t) = lag_rows None (window t s).
Proof.
  unfold us_states_day.
  rewrite day_rows_of_flat_map by (apply unique_NoDup, String.eqb_eq).
  destruct (in_dec string_dec s _) as [|Hn]; [reflexivity|].
  rewrite window_absent; [reflexivity|].
  intros H. apply Hn. now apply unique_In; [apply String.eqb_eq|].
Qed.

(** ** Cleaning *)

Lemma clip_lower0_idem x : clip_lower0 (clip_lower0 x) = clip_lower0 x.
Proof.
  destruct x as [v|]; simpl; [|reflexivity].
  f_equal. lia.
Qed.

(** C7. Clipping negative deltas to zero is idempotent: on every delta
    series, and on the table the script cleans, a second clip changes
    nothing. *)
Theorem clip_idempotent :
  (forall xs, clip_series (clip_series xs) = clip_series xs)
  /\ (forall data, clean (clean data) = clean data).
Proof.
  split.
  - intros xs. unfold clip_series. rewrite map_map.
    apply map_ext. apply clip_lower0_idem.
  - intros data. unfold clean, clip_deaths_day, clip_confirmed_cases_day.
    rewrite !map_map. apply map_ext. intros r; simpl.
    now rewrite !clip_lower0_idem.
Qed.

(** ** Day-over-day deltas *)

Lemma lag_rows_dates prev p :
  map Day.date (lag_rows prev p) = map UsStates.date p.
Proof.
  revert prev. induction p as [|r p IH]; simpl; intros; [reflexivity|].
  now rewrite IH.
Qed.

Lemma lag_rows_succ prev p i a b :
  nth_error p i = Some a -> nth_error p (S i) = Some b ->
  exists r, nth_error (lag_rows prev p) (S i) = Some r
    /\ Day.date r = UsStates.date b
    /\ Day.confirmed_cases_day r
       = Some (UsStates.confirmed_cases b - UsStates.confirmed_cases a)
    /\ Day.deaths_day r = Some (UsStates.deaths b - UsStates.deaths a).
Proof.
  revert prev i. induction p as [|u p IH]; intros prev i Ha Hb.
  - destruct i; discriminate.
  - destruct i as [|i].
    + simpl in Ha. injection Ha as ->.
      destruct p as [|v p]; [discriminate|]. simpl in Hb. injection Hb as ->.
      simpl. eexists. split; [reflexivity|]. simpl. auto.
    + simpl in Ha. change (nth_error p (S i) = Some b) in Hb.
      destruct (IH (Some u) i Ha Hb) as (r & Hr & H).
      exists r. split; [exact Hr|exact H].
Qed.

Lemma lag_rows_defined u p :
  defined_count (map Day.confirmed_cases_day (lag_rows (Some u) p)) = length p
  /\ defined_count (map Day.deaths_day (lag_rows (Some u) p)) = length p.
Proof.
  revert u. unfold defined_count.
  induction p as [|r p IH]; intros u; simpl; [auto|].
  destruct (IH r) as [-> ->]. auto.
Qed.

Lemma window_sorted t s :
  Sorted (fun a b => date_leb (UsStates.date a) (UsStates.date b) = true)
         (window t s).
Proof.
  apply (sort_by_sorted (fun a b => date_leb (UsStates.date a) (UsStates.date b))).
  intros a b. apply date_leb_total.
Qed.

(** C4. For a state of the table, its rows of [us_states_day] follow its
    daily records ordered by date, one row per record; the first row's
    deltas are missing (the row is present), every later row's delta is
    its cumulative count minus the preceding one (of either sign), and
    the defined deltas number one less than the daily records. *)
Theorem delta_is_lag_difference t s :
  In s (map UsStates.state_name t) ->
  let p := window t s in
  let out := day_rows_of s (us_states_day t) in
  Permutation p (daily_records t s)
  /\ Sorted (fun a b => date_leb (UsStates.date a) (UsStates.date b) = true) p
  /\ map Day.date out = map UsStates.date p
  /\ (exists r0 rest, out = r0 :: rest
        /\ Day.confirmed_cases_day r0 = None /\ Day.deaths_day r0 = None)
  /\ (forall i a b,
        nth_error p i = Some a -> nth_error p (S i) = Some b ->
        exists r, nth_error out (S i) = Some r
          /\ Day.date r = UsStates.date b
          /\ Day.confirmed_cases_day r
             = Some (UsStates.confirmed_cases b - UsStates.confirmed_cases a)
          /\ Day.deaths_day r = Some (UsStates.deaths b - UsStates.deaths a))
  /\ Z.of_nat (defined_count (map Day.confirmed_cases_day out))
     = Z.of_nat (length (daily_records t s)) - 1
  /\ Z.of_nat (defined_count (map Day.deaths_day out))
     = Z.of_nat (length (daily_records t s)) - 1.
Proof.
  intros Hs p out. subst out. rewrite day_rows_of_us_states_day. fold p.
  assert (Hperm : Permutation p (daily_records t s)) by apply window_perm.
  split; [exact Hperm|]. split; [apply window_sorted|].
  split; [apply lag_rows_dates|].
  rewrite <- (Permutation_length Hperm).
  destruct p as [|u p'] eqn:Ep.
  - exfalso. apply in_map_iff in Hs as (r & Hr & Hin).
    assert (In r (daily_records t s)) as H.
    { apply filter_In. split; [exact Hin|]. now apply String.eqb_eq. }
    apply (Permutation_in _ (Permutation_sym Hperm)) in H. destruct H.
  - split; [|split].
    + simpl. eauto.
    + intros i a b. apply lag_rows_succ.
    + destruct (lag_rows_defined u p') as [H1 H2].
      cbn [lag_rows map option_map sql_sub Day.confirmed_cases_day
           Day.deaths_day].
      unfold defined_count in *. cbn [non_null].
      rewrite H1, H2. cbn [length]. lia.
Qed.

Lemma delta_is_lag_difference_witness :
  In "New York"%string (map UsStates.state_name example_ny)
  /\ Z.of_nat (defined_count
       (map Day.deaths_day (day_rows_of "New York" (us_states_day example_ny))))
     = 4 - 1.
Proof.
  assert (H : In "New York"%string (map UsStates.state_name example_ny))
    by (simpl; auto).
  split; [exact H|].
  exact (proj2 (proj2 (proj2 (proj2 (proj2 (proj2
           (delta_is_lag_difference example_ny "New York" H))))))).
Defined.

(** ** The z-score expression never divides by zero *)

Lemma NULLIF_zero_free x y : NULLIF x 0%R = Some y -> y <> 0%R.
Proof.
  destruct x as [v|]; simpl; [|discriminate].
  destruct (Req_dec_T v 0%R); [discriminate|]. now intros [= <-].
Qed.

Lemma zscore_total v col : zscore v col = Ok (zscore_value v col).
Proof.
  unfold zscore, zscore_value, sql_div.
  destruct (NULLIF (STDDEV col) 0%R) as [y|] eqn:E.
  - apply NULLIF_zero_free in E.
    destruct (Req_dec_T y 0%R); [contradiction|].
    now destruct (sql_subR v (AVG col)).
  - now destruct (sql_subR v (AVG col)).
Qed.

Lemma select_row_total d r : select_row d r = Ok (select_row_value d r).
Proof. unfold select_row. now rewrite !zscore_total. Qed.

Lemma traverse_total {A B} (f : A -> outcome B) (g : A -> B) l :
  (forall a, f a = Ok (g a)) -> traverse f l = Ok (map g l).
Proof.
  intros H. induction l as [|a l IH]; simpl; [reflexivity|].
  now rewrite H, IH.
Qed.

Lemma query_total t : query t = Ok (query_rows t).
Proof.
  unfold query, query_rows.
  now rewrite (traverse_total _ _ _ (select_row_total (us_states_day t))).
Qed.

Lemma query_rows_In t r :
  In r (query_rows t) <->
  exists d, In d (us_states_day t) /\ r = select_row_value (us_states_day t) d.
Proof.
  unfold query_rows. rewrite sort_by_In, in_map_iff.
  split; intros (d & H1 & H2); exists d; auto.
Qed.

Lemma zscore_value_missing col : zscore_value None col = None.
Proof. reflexivity. Qed.

Lemma zscore_value_sample v col :
  zscore_value (Some v) col = sample_zscore v (non_null col).
Proof.
  unfold zscore_value, sample_zscore, AVG, STDDEV.
  destruct (non_null col) as [|a vs] eqn:E; [reflexivity|].
  destruct (length (a :: vs) <? 2)%nat; [reflexivity|]. simpl.
  now destruct (Req_dec_T (sample_stddev (a :: vs)) 0%R).
Qed.

(** Every row the query returns carries the sample z-scores of its
    deltas within its state. *)
Lemma query_rows_zscores t r :
  In r (query_rows t) ->
  (forall v, Data.confirmed_cases_day r = Some v ->
     Data.confirmed_cases_day_zscore r
     = sample_zscore v (state_cases_deltas t (Data.state_name r)))
  /\ (forall v, Data.deaths_day r = Some v ->
     Data.deaths_day_zscore r
     = sample_zscore v (state_deaths_deltas t (Data.state_name r)))
  /\ (Data.confirmed_cases_day r = None ->
      Data.confirmed_cases_day_zscore r = None)
  /\ (Data.deaths_day r = None -> Data.deaths_day_zscore r = None).
Proof.
  intros H. apply query_rows_In in H as (d & Hd & ->). simpl.
  repeat split; intros; rewrite H;
    auto using zscore_value_sample, zscore_value_missing.
Qed.
(** ** The spread is the sample standard deviation *)

Lemma example_ny_cases_deltas :
  state_cases_deltas example_ny "New York" = [10; -5; 25].
Proof. vm_compute. reflexivity. Qed.

Lemma example_mean : mean [10; -5; 25] = 10%R.
Proof. unfold mean, Rsum. simpl. field. Qed.

Lemma example_sum_sq_dev : sum_sq_dev [10; -5; 25] = 450%R.
Proof. unfold sum_sq_dev. rewrite example_mean. unfold Rsum. simpl. ring. Qed.

Lemma example_sample_stddev : sample_stddev [10; -5; 25] = 15%R.
Proof.
  unfold sample_stddev. rewrite example_sum_sq_dev. simpl.
  replace (450 / (1 + 1 + 1 - 1))%R with (15 * 15)%R by field.
  apply sqrt_square. lra.
Qed.

Lemma example_population_stddev : population_stddev [10; -5; 25] <> 15%R.
Proof.
  unfold population_stddev. rewrite example_sum_sq_dev. simpl.
  replace (450 / (1 + 1 + 1))%R with 150%R by field.
  intros H. assert (sqrt 150 * sqrt 150 = 150)%R as E by (apply sqrt_sqrt; lra).
  rewrite H in E. lra.
Qed.

Lemma example_sample_zscore : sample_zscore 25 [10; -5; 25] = Some 1%R.
Proof.
  unfold sample_zscore. rewrite example_sample_stddev, example_mean. simpl.
  destruct (Req_dec_T 15 0) as [E|_]; [lra|].
  f_equal. field.
Qed.

Lemma example_population_zscore :
  population_zscore 25 [10; -5; 25] <> Some 1%R.
Proof.
  unfold population_zscore. rewrite example_mean.
  destruct (Req_dec_T _ 0) as [E|Hn]; [discriminate|].
  intros [= H]. apply example_population_stddev.
  apply (Rmult_eq_compat_r (population_stddev [10; -5; 25])) in H.
  unfold Rdiv in H. rewrite Rmult_assoc, Rinv_l in H by exact Hn. lra.
Qed.

(** The last day of the example in the query's result. *)
Lemma example_last_row :
  let r := select_row_value (us_states_day example_ny)
             (Day.mk "New York" (mkDate 2020 4 2) 1030 110 (Some 25) (Some 7)) in
  In r (query_rows example_ny)
  /\ Data.state_name r = "New York"%string
  /\ Data.confirmed_cases_day r = Some 25.
Proof.
  intros r. split; [|split; reflexivity].
  apply query_rows_In. eexists. split; [|reflexivity].
  vm_compute. tauto.
Qed.

(** C3, as the query computes it. The query never fails, and for every
    returned row with a defined delta the z-score is (value - mean) /
    sigma, where the mean and sigma are taken over all defined deltas of
    the row's state and sigma is the sample standard deviation (divisor
    n - 1); the z-score is missing, with no division error, when sigma is
    zero or the state has fewer than two defined deltas. *)
Theorem zscore_sample_standardised t :
  query t = Ok (query_rows t)
  /\ forall r, In r (query_rows t) ->
     (forall v, Data.confirmed_cases_day r = Some v ->
        let ds := state_cases_deltas t (Data.state_name r) in
        Data.confirmed_cases_day_zscore r
        = if (length ds <? 2)%nat then None
          else if Req_dec_T (sample_stddev ds) 0%R then None
          else Some ((IZR v - mean ds) / sample_stddev ds)%R)
     /\ (forall v, Data.deaths_day r = Some v ->
        let ds := state_deaths_deltas t (Data.state_name r) in
        Data.deaths_day_zscore r
        = if (length ds <? 2)%nat then None
          else if Req_dec_T (sample_stddev ds) 0%R then None
          else Some ((IZR v - mean ds) / sample_stddev ds)%R).
Proof.
  split; [apply query_total|].
  intros r Hr. destruct (query_rows_zscores t r Hr) as (Hc & Hd & _).
  split; intros v Hv ds; [apply (Hc v Hv)|apply (Hd v Hv)].
Qed.

Lemma zscore_sample_standardised_witness :
  exists r, In r (query_rows example_ny)
    /\ Data.confirmed_cases_day r = Some 25
    /\ Data.confirmed_cases_day_zscore r = Some 1%R.
Proof.
  destruct example_last_row as (Hin & Hs & Hv).
  eexists. split; [exact Hin|]. split; [exact Hv|].
  rewrite (proj1 (proj2 (zscore_sample_standardised example_ny) _ Hin) 25 Hv).
  cbv zeta. rewrite Hs, example_ny_cases_deltas.
  exact example_sample_zscore.
Defined.

(** C3 as worded fails: on the four-day example the last row's z-score
    is 1, which is not (25 - mean) / sigma for the population standard
    deviation of the deltas 10, -5, 25. *)
Lemma zscore_population_counterexample :
  exists r, In r (query_rows example_ny)
    /\ Data.confirmed_cases_day r = Some 25
    /\ Data.confirmed_cases_day_zscore r
       <> population_zscore 25 (state_cases_deltas example_ny (Data.state_name r)).
Proof.
  destruct example_last_row as (Hin & Hs & Hv).
  eexists. split; [exact Hin|]. split; [exact Hv|].
  rewrite (proj1 (query_rows_zscores _ _ Hin) 25 Hv).
  rewrite Hs, example_ny_cases_deltas, example_sample_zscore.
  intros H. now apply example_population_zscore.
Qed.

(** ** Cleaning touches the deltas only *)

Lemma Forall2_map_r {A B} (P : A -> B -> Prop) (f : A -> B) l :
  (forall a, In a l -> P a (f a)) -> Forall2 P l (map f l).
Proof.
  induction l as [|a l IH]; simpl; intros H; constructor; auto.
Qed.

Lemma clean_row data c :
  In c (clean data) <->
  exists r, In r data
    /\ c = Data.mk (Data.date r) (Data.state_name r)
                   (clip_lower0 (Data.confirmed_cases_day r))
                   (clip_lower0 (Data.deaths_day r))
                   (Data.confirmed_cases_day_zscore r)
                   (Data.deaths_day_zscore r).
Proof.
  unfold clean, clip_deaths_day, clip_confirmed_cases_day.
  rewrite map_map, in_map_iff. simpl.
  split; intros (r & H1 & H2); exists r; auto.
Qed.

Lemma clip_lower0_nonneg x v : clip_lower0 x = Some v -> 0 <= v.
Proof. destruct x; simpl; [intros [= <-]; lia | discriminate]. Qed.

Lemma state_data_In s data x :
  In x (state_data s data) <->
  exists r, In r data /\ Data.state_name r = s
    /\ x = Ny.mk r (to_period_M (Data.date r)).
Proof.
  unfold state_data. rewrite in_map_iff. split.
  - intros (r & <- & H). apply sort_by_In, filter_In in H as [H1 H2].
    exists r. split; [exact H1|]. split; [now apply String.eqb_eq|reflexivity].
  - intros (r & H1 & H2 & ->). exists r. split; [reflexivity|].
    apply sort_by_In, filter_In. split; [exact H1|]. now apply String.eqb_eq.
Qed.

(** C2. The query succeeds; in each returned row the two z-scores are the
    z-score expression evaluated on the raw LAG deltas of the row's
    state, negative ones included. Cleaning then turns each negative
    delta into 0, keeps each non-negative delta and each missing one,
    and leaves date, state and both z-scores as they were; the rows the
    monthly aggregation reads carry the death deltas so clipped. *)
Theorem zscores_raw_aggregation_clipped t :
  query t = Ok (query_rows t)
  /\ (forall r, In r (query_rows t) ->
        exists d, In d (us_states_day t)
          /\ Data.date r = Day.date d
          /\ Data.state_name r = Day.state_name d
          /\ Data.confirmed_cases_day r = Day.confirmed_cases_day d
          /\ Data.deaths_day r = Day.deaths_day d
          /\ Data.confirmed_cases_day_zscore r
             = zscore_value (Day.confirmed_cases_day d)
                 (map Day.confirmed_cases_day
                      (day_rows_of (Day.state_name d) (us_states_day t)))
          /\ Data.deaths_day_zscore r
             = zscore_value (Day.deaths_day d)
                 (map Day.deaths_day
                      (day_rows_of (Day.state_name d) (us_states_day t))))
  /\ Forall2 (fun r c =>
                Data.date c = Data.date r
                /\ Data.state_name c = Data.state_name r
                /\ Data.confirmed_cases_day_zscore c
                   = Data.confirmed_cases_day_zscore r
                /\ Data.deaths_day_zscore c = Data.deaths_day_zscore r
                /\ Data.confirmed_cases_day c
                   = match Data.confirmed_cases_day r with
                     | Some v => Some (if v <? 0 then 0 else v)
                     | None => None
                     end
                /\ Data.deaths_day c
                   = match Data.deaths_day r with
                     | Some v => Some (if v <? 0 then 0 else v)
                     | None => None
                     end)
             (query_rows t) (clean (query_rows t))
  /\ (forall s x, In x (state_data s (clean (query_rows t))) ->
        exists r, In r (query_rows t)
          /\ Data.state_name r = s
          /\ Data.date (Ny.base x) = Data.date r
          /\ Ny_deaths_day x
             = match Data.deaths_day r with
               | Some v => Some (if v <? 0 then 0 else v)
               | None => None
               end
          /\ Ny_cases_zscore x = Data.confirmed_cases_day_zscore r
          /\ Ny_deaths_zscore x = Data.deaths_day_zscore r).
Proof.
  assert (Hclip : forall x, clip_lower0 x
                            = match x with
                              | Some v => Some (if v <? 0 then 0 else v)
                              | None => None
                              end).
  { intros [v|]; simpl; [|reflexivity].
    f_equal. destruct (Z.ltb_spec v 0); lia. }
  split; [apply query_total|]. split; [|split].
  - intros r Hr. apply query_rows_In in Hr as (d & Hd & ->).
    exists d. simpl. repeat split; auto.
  - unfold clean, clip_deaths_day, clip_confirmed_cases_day.
    rewrite map_map. apply Forall2_map_r. intros r _. simpl.
    rewrite !Hclip. tauto.
  - intros s x Hx. apply state_data_In in Hx as (c & Hc & Hs & ->).
    apply clean_row in Hc as (r & Hr & ->). simpl in Hs.
    exists r. unfold Ny_deaths_day, Ny_cases_zscore, Ny_deaths_zscore. simpl.
    rewrite Hclip. repeat split; auto.
Qed.

Lemma zscores_raw_aggregation_clipped_witness :
  query example_ny = Ok (query_rows example_ny)
  /\ (exists r0, In r0 (query_rows example_ny)
        /\ Data.date r0 = mkDate 2020 4 1
        /\ Data.deaths_day r0 = Some (-2))
  /\ exists x r,
       In x (state_data "New York" (clean (query_rows example_ny)))
       /\ Data.date (Ny.base x) = mkDate 2020 4 1
       /\ Ny_deaths_day x = Some 0
       /\ In r (query_rows example_ny)
       /\ Data.date r = mkDate 2020 4 1
       /\ Ny_deaths_zscore x = Data.deaths_day_zscore r.
Proof.
  destruct (zscores_raw_aggregation_clipped example_ny) as (Hq & _ & _ & Hagg).
  split; [exact Hq|].
  set (d := Day.mk "New York" (mkDate 2020 4 1) 1005 103 (Some (-5)) (Some (-2))).
  set (r := select_row_value (us_states_day example_ny) d).
  set (c := Data.mk (Data.date r) (Data.state_name r)
                    (clip_lower0 (Data.confirmed_cases_day r))
                    (clip_lower0 (Data.deaths_day r))
                    (Data.confirmed_cases_day_zscore r)
                    (Data.deaths_day_zscore r)).
  assert (Hr : In r (query_rows example_ny)).
  { apply query_rows_In. exists d. split; [|reflexivity]. vm_compute. tauto. }
  assert (Hx : In (Ny.mk c (to_period_M (Data.date c)))
                  (state_data "New York" (clean (query_rows example_ny)))).
  { apply state_data_In. exists c. split; [|split; reflexivity].
    apply clean_row. exists r. split; [exact Hr|reflexivity]. }
  split; [exists r; auto|].
  destruct (Hagg _ _ Hx) as (r' & Hr' & _ & Hd & _ & _ & Hz).
  exists (Ny.mk c (to_period_M (Data.date c))), r'.
  split; [exact Hx|]. split; [reflexivity|]. split; [reflexivity|].
  split; [exact Hr'|]. split; [now rewrite <- Hd|exact Hz].
Defined.

(** ** Outliers *)

Lemma gt_mask_spec z b : gt_mask z b = true <-> exists v, z = Some v /\ (v > b)%R.
Proof.
  unfold gt_mask. destruct z as [v|].
  - destruct (Rgt_dec v b); split; try discriminate; eauto.
    intros (v' & [= <-] & H). contradiction.
  - split; [discriminate|]. intros (v & H & _). discriminate.
Qed.

Lemma lt_mask_spec z b : lt_mask z b = true <-> exists v, z = Some v /\ (v < b)%R.
Proof.
  unfold lt_mask. destruct z as [v|].
  - destruct (Rlt_dec v b); split; try discriminate; eauto.
    intros (v' & [= <-] & H). contradiction.
  - split; [discriminate|]. intros (v & H & _). discriminate.
Qed.

Lemma outlier_mask_spec z :
  gt_mask z upper_bound || lt_mask z lower_bound = true
  <-> exists v, z = Some v /\ (v > 3 \/ v < -3)%R.
Proof.
  rewrite orb_true_iff, gt_mask_spec, lt_mask_spec.
  unfold upper_bound, lower_bound.
  split.
  - intros [(v & H1 & H2)|(v & H1 & H2)]; exists v; auto.
  - intros (v & H1 & [H2|H2]); [left|right]; exists v; auto.
Qed.

(** C5. Outlier detection yields two selections of the state's rows.
    A row is a case outlier exactly when its case z-score is above 3 or
    below -3, a death outlier exactly when its death z-score is; the
    selected rows are rows of the input, unchanged, and two rows with the
    same case (death) z-score are selected alike whatever their other
    z-score is. *)
Theorem outliers_threshold ny :
  (forall r, In r (outliers ny) <->
     In r ny /\ exists z, Ny_cases_zscore r = Some z /\ (z > 3 \/ z < -3)%R)
  /\ (forall r, In r (outliers_deaths ny) <->
     In r ny /\ exists z, Ny_deaths_zscore r = Some z /\ (z > 3 \/ z < -3)%R)
  /\ (forall r r', In r ny -> In r' ny ->
        Ny_cases_zscore r = Ny_cases_zscore r' ->
        (In r (outliers ny) <-> In r' (outliers ny)))
  /\ (forall r r', In r ny -> In r' ny ->
        Ny_deaths_zscore r = Ny_deaths_zscore r' ->
        (In r (outliers_deaths ny) <-> In r' (outliers_deaths ny))).
Proof.
  assert (Hc : forall r, In r (outliers ny) <->
     In r ny /\ exists z, Ny_cases_zscore r = Some z /\ (z > 3 \/ z < -3)%R).
  { intros r. unfold outliers. now rewrite filter_In, outlier_mask_spec. }
  assert (Hd : forall r, In r (outliers_deaths ny) <->
     In r ny /\ exists z, Ny_deaths_zscore r = Some z /\ (z > 3 \/ z < -3)%R).
  { intros r. unfold outliers_deaths. now rewrite filter_In, outlier_mask_spec. }
  split; [exact Hc|]. split; [exact Hd|]. split.
  - intros r r' Hr Hr' E. rewrite !Hc, E. tauto.
  - intros r r' Hr Hr' E. rewrite !Hd, E. tauto.
Qed.

Lemma outliers_threshold_witness :
  In example_spike_row (outliers [example_first_row; example_spike_row])
  /\ ~ In example_spike_row
        (outliers_deaths [example_first_row; example_spike_row]).
Proof.
  pose proof (outliers_threshold [example_first_row; example_spike_row])
    as (Hc & Hd & _).
  split.
  - apply Hc. split; [simpl; auto|].
    exists 4%R. split; [reflexivity|]. left. lra.
  - intros H. apply Hd in H as (_ & z & Hz & Hb).
    injection Hz as <-. lra.
Defined.

Lemma cleaned_state_row t s x :
  In x (state_data s (clean (query_rows t))) ->
  exists r, In r (query_rows t) /\ Data.state_name r = s
    /\ Data.confirmed_cases_day (Ny.base x)
       = clip_lower0 (Data.confirmed_cases_day r)
    /\ Data.deaths_day (Ny.base x) = clip_lower0 (Data.deaths_day r)
    /\ Ny_cases_zscore x = Data.confirmed_cases_day_zscore r
    /\ Ny_deaths_zscore x = Data.deaths_day_zscore r.
Proof.
  intros Hx. apply state_data_In in Hx as (c & Hc & Hs & ->).
  apply clean_row in Hc as (r & Hr & ->). simpl in Hs.
  exists r. unfold Ny_cases_zscore, Ny_deaths_zscore. simpl. auto 7.
Qed.

Lemma sample_zscore_degenerate v ds :
  sample_stddev ds = 0%R -> sample_zscore v ds = None.
Proof.
  intros H. unfold sample_zscore.
  destruct (length ds <? 2)%nat; [reflexivity|].
  now destruct (Req_dec_T (sample_stddev ds) 0%R).
Qed.

(** C9. A row whose case z-score is missing is in no case-outlier
    selection, and a row whose death z-score is missing is in no
    death-outlier selection: both comparisons are false on a missing
    value. In the script's run this covers the first date of the state
    (missing delta) and every row of a state whose deltas have zero
    deviation. *)
Theorem missing_zscore_not_flagged :
  (forall ny r, Ny_cases_zscore r = None -> ~ In r (outliers ny))
  /\ (forall ny r, Ny_deaths_zscore r = None -> ~ In r (outliers_deaths ny))
  /\ (forall t s x, In x (state_data s (clean (query_rows t))) ->
        Data.confirmed_cases_day (Ny.base x) = None
        \/ sample_stddev (state_cases_deltas t s) = 0%R ->
        Ny_cases_zscore x = None /\ forall ny, ~ In x (outliers ny))
  /\ (forall t s x, In x (state_data s (clean (query_rows t))) ->
        Data.deaths_day (Ny.base x) = None
        \/ sample_stddev (state_deaths_deltas t s) = 0%R ->
        Ny_deaths_zscore x = None /\ forall ny, ~ In x (outliers_deaths ny)).
Proof.
  assert (Hc : forall ny r, Ny_cases_zscore r = None -> ~ In r (outliers ny)).
  { intros ny r H Hin. apply filter_In in Hin as [_ Hm].
    rewrite H in Hm. discriminate. }
  assert (Hd : forall ny r,
             Ny_deaths_zscore r = None -> ~ In r (outliers_deaths ny)).
  { intros ny r H Hin. apply filter_In in Hin as [_ Hm].
    rewrite H in Hm. discriminate. }
  split; [exact Hc|]. split; [exact Hd|]. split.
  - intros t s x Hx Hcase.
    destruct (cleaned_state_row _ _ _ Hx) as (r & Hr & Hs & E1 & _ & Ez & _).
    destruct (query_rows_zscores t r Hr) as (Hv & _ & Hn & _).
    assert (Ny_cases_zscore x = None) as Hz.
    { rewrite Ez. destruct (Data.confirmed_cases_day r) as [v|] eqn:Ev.
      - destruct Hcase as [H|H]; [rewrite E1 in H; discriminate|].
        rewrite (Hv v eq_refl), Hs. now apply sample_zscore_degenerate.
      - now apply Hn. }
    split; [exact Hz|]. intros ny. now apply Hc.
  - intros t s x Hx Hcase.
    destruct (cleaned_state_row _ _ _ Hx) as (r & Hr & Hs & _ & E1 & _ & Ez).
    destruct (query_rows_zscores t r Hr) as (_ & Hv & _ & Hn).
    assert (Ny_deaths_zscore x = None) as Hz.
    { rewrite Ez. destruct (Data.deaths_day r) as [v|] eqn:Ev.
      - destruct Hcase as [H|H]; [rewrite E1 in H; discriminate|].
        rewrite (Hv v eq_refl), Hs. now apply sample_zscore_degenerate.
      - now apply Hn. }
    split; [exact Hz|]. intros ny. now apply Hd.
Qed.

Lemma missing_zscore_not_flagged_witness :
  Ny_cases_zscore example_first_row = None
  /\ ~ In example_first_row (outliers [example_first_row]).
Proof.
  split; [reflexivity|].
  apply (proj1 missing_zscore_not_flagged). reflexivity.
Defined.

(** ** Monthly aggregation *)

Lemma Zsum_non_null col : Zsum (non_null col) = Zsum (map or_zero col).
Proof.
  induction col as [|[v|] col IH]; simpl; [reflexivity| |].
  - now rewrite IH.
  - exact IH.
Qed.

Lemma sum_skipna_or_zero col :
  sum_skipna col = wrap64 (Zsum (map or_zero col)).
Proof. unfold sum_skipna. now rewrite Zsum_non_null. Qed.

Lemma wrap64_id z : - 2 ^ 63 <= z < 2 ^ 63 -> wrap64 z = z.
Proof.
  intros H. unfold wrap64. rewrite Z.mod_small; lia.
Qed.

Lemma Zsum_map_add {K} (f g : K -> Z) ks :
  Zsum (map (fun k => f k + g k) ks) = Zsum (map f ks) + Zsum (map g ks).
Proof. induction ks as [|k ks IH]; simpl; [reflexivity|]. rewrite IH. lia. Qed.

Lemma Zsum_map_zero {K} (f : K -> Z) ks :
  (forall k, In k ks -> f k = 0) -> Zsum (map f ks) = 0.
Proof.
  induction ks as [|k ks IH]; simpl; intros H; [reflexivity|].
  rewrite (H k (or_introl eq_refl)), IH; auto.
Qed.

Section GroupSums.
Context {A K : Type} (eqb : K -> K -> bool) (key : A -> K) (val : A -> Z).
Hypothesis eqb_spec : forall a b, eqb a b = true <-> a = b.

(** The one group that holds a row gets its value, the others nothing. *)
Lemma Zsum_indicator k0 v ks :
  NoDup ks -> In k0 ks ->
  Zsum (map (fun k => if eqb k0 k then v else 0) ks) = v.
Proof.
  induction 1 as [|k ks Hk Hnd IH]; simpl; intros Hin; [tauto|].
  destruct Hin as [->|Hin].
  - assert (eqb k0 k0 = true) as -> by now apply eqb_spec.
    rewrite Zsum_map_zero; [lia|].
    intros k' Hk'. destruct (eqb k0 k') eqn:E; [|reflexivity].
    apply eqb_spec in E. now subst.
  - rewrite (IH Hin). destruct (eqb k0 k) eqn:E; [|lia].
    apply eqb_spec in E. now subst.
Qed.

Lemma group_sums_total ks l :
  NoDup ks -> (forall x, In x l -> In (key x) ks) ->
  Zsum (map (fun k => Zsum (map val (filter (fun r => eqb (key r) k) l))) ks)
  = Zsum (map val l).
Proof.
  intros Hnd. induction l as [|x l IH]; intros Hin.
  - simpl. now apply Zsum_map_zero.
  - rewrite (map_ext _
      (fun k => (if eqb (key x) k then val x else 0)
                + Zsum (map val (filter (fun r => eqb (key r) k) l)))).
    + rewrite Zsum_map_add, Zsum_indicator, IH.
      * reflexivity.
      * intros y Hy. apply Hin. now right.
      * exact Hnd.
      * apply Hin. now left.
    + intros k. simpl. now destruct (eqb (key x) k).
Qed.
End GroupSums.

Lemma period_leb_total a b : period_leb a b = true \/ period_leb b a = true.
Proof.
  unfold period_leb.
  destruct (Z.ltb_spec (fst a) (fst b)), (Z.ltb_spec (fst b) (fst a)),
    (Z.eqb_spec (fst a) (fst b)), (Z.eqb_spec (fst b) (fst a)),
    (Z.leb_spec (snd a) (snd b)), (Z.leb_spec (snd b) (snd a));
    simpl; auto; lia.
Qed.

Lemma monthly_deaths_months ny :
  map fst (monthly_deaths ny)
  = sort_by period_leb (unique period_eqb (map Ny.month ny)).
Proof.
  unfold monthly_deaths. rewrite map_map. simpl. apply map_id.
Qed.

(** The specification's worked example: deaths 100, 105, 103, 110 give
    deltas missing, 5, -2, 7, cleaned to missing, 5, 0, 7, which sum to
    12 over the two months the four days fall in. *)
Lemma example_monthly_deaths :
  monthly_deaths (ny_data (clean (query_rows example_ny)))
  = [((2020, 3), 5); ((2020, 4), 7)].
Proof. cbv - [zscore_value]. reflexivity. Qed.

(** ** The assertions *)

(** After the assertions the first stages always run, and whatever a
    later stage raises is not an assertion error. *)
Lemma pipeline_starts t payload :
  exists rest r,
    pipeline t payload
    = (RunQuery :: ClipNegatives :: MonthlyAggregation :: rest, r)
    /\ r <> Raise AssertionError.
Proof.
  unfold pipeline. rewrite query_total. cbv zeta.
  destruct (normalized_values _) as [nv|e] eqn:En.
  - destruct payload as [[|p ps]|];
      (eexists; eexists; split; [reflexivity|discriminate]).
  - assert (e = ValueError) as ->.
    { unfold normalized_values in En.
      destruct (Zmin_list _); [destruct (Zmax_list _)|]; congruence. }
    eexists; eexists; split; [reflexivity|discriminate].
Qed.

(** C8. If the table's row count is not 61942 or its schema does not
    have 5 columns, the run ends in an assertion error after the preview
    only, with no event of a transformation stage. If both match, the
    assertions pass: the run is the preview followed by the run of the
    pipeline, whose first stages (query, cleaning, monthly aggregation)
    are reached and whose outcome is never an assertion error. *)
Theorem assertions_guard_pipeline table payload :
  (UsStates.num_rows table <> 61942
   \/ length (UsStates.schema table) <> 5%nat ->
   script table payload = ([PrintPreview], Raise AssertionError)
   /\ existsb is_transformation (fst (script table payload)) = false)
  /\ (UsStates.num_rows table = 61942 ->
      length (UsStates.schema table) = 5%nat ->
      script table payload
      = (PrintPreview :: fst (pipeline (UsStates.rows table) payload),
         snd (pipeline (UsStates.rows table) payload))
      /\ snd (script table payload) <> Raise AssertionError
      /\ exists rest,
           fst (script table payload)
           = PrintPreview :: RunQuery :: ClipNegatives
               :: MonthlyAggregation :: rest).
Proof.
  split.
  - intros H.
    assert (script table payload = ([PrintPreview], Raise AssertionError)) as E.
    { unfold script. simpl. destruct H as [H|H].
      - destruct (Z.eqb_spec (UsStates.num_rows table) 61942);
          [contradiction|reflexivity].
      - destruct (UsStates.num_rows table =? 61942); [|reflexivity]. simpl.
        destruct (Z.eqb_spec (Z.of_nat (length (UsStates.schema table))) 5);
          [lia|reflexivity]. }
    rewrite E. auto.
  - intros Hr Hc.
    assert (E : script table payload
                = (PrintPreview :: fst (pipeline (UsStates.rows table) payload),
                   snd (pipeline (UsStates.rows table) payload))).
    { unfold script. simpl. rewrite Hr, Hc. simpl.
      now destruct (pipeline (UsStates.rows table) payload). }
    destruct (pipeline_starts (UsStates.rows table) payload)
      as (rest & r & Ep & Hne).
    rewrite E, Ep. simpl. split; [reflexivity|]. split; [exact Hne|].
    now exists rest.
Qed.

Lemma assertions_guard_pipeline_witness :
  UsStates.num_rows example_table_short <> 61942
  /\ script example_table_short (Some example_pop)
     = ([PrintPreview], Raise AssertionError)
  /\ snd (script example_table_expected (Some example_pop))
     <> Raise AssertionError.
Proof.
  assert (H : UsStates.num_rows example_table_short <> 61942)
    by (simpl; discriminate).
  split; [exact H|]. split.
  - exact (proj1 (proj1 (assertions_guard_pipeline example_table_short
                           (Some example_pop)) (or_introl H))).
  - exact (proj1 (proj2 (proj2 (assertions_guard_pipeline
                                  example_table_expected (Some example_pop))
                           eq_refl eq_refl))).
Defined.

(** On the four-day example every stage runs; with a single state the
    colour normalisation is 0/0. *)
Lemma example_run :
  normalized_values
    (map snd (states_and_highest_month (data2_peaks example_ny))) = Ok [NaN]
  /\ script example_table_expected (Some example_pop)
     = (PrintPreview :: pipeline_events,
        Ok (pipeline_outputs example_ny example_pop)).
Proof.
  assert (E : normalized_values
                (map snd (states_and_highest_month (data2_peaks example_ny)))
              = Ok [NaN]) by (vm_compute; reflexivity).
  split; [exact E|].
  unfold script, pipeline. simpl UsStates.rows. rewrite query_total.
  cbv zeta. rewrite E. reflexivity.
Qed.

(** An empty table passes through the query and the aggregation and
    fails in the colour normalisation; an empty population payload
    fails when its columns are selected. *)
Lemma pipeline_failures :
  snd (pipeline [] (Some example_pop)) = Raise ValueError
  /\ snd (pipeline example_ny (Some [])) = Raise KeyError
  /\ snd (pipeline example_ny None) = Raise FetchError.
Proof.
  assert (E : normalized_values
                (map snd (states_and_highest_month (data2_peaks example_ny)))
              = Ok [NaN]) by (vm_compute; reflexivity).
  repeat split; unfold pipeline; rewrite query_total; cbv zeta;
    rewrite ?E; reflexivity.
Qed.

(** ** The population join *)

Lemma merge_left_In l r m :
  In m (merge_left l r) <->
  In (Merged.left m) l
  /\ match Merged.population m with
     | None => forall p, In p r -> Pop.state_name p <> Peak.state_name (Merged.left m)
     | Some n => exists p, In p r
                   /\ Pop.state_name p = Peak.state_name (Merged.left m)
                   /\ Pop.population p = n
     end.
Proof.
  unfold merge_left. rewrite in_flat_map. split.
  - intros (x & Hx & Hm).
    destruct (filter _ r) as [|p0 ms] eqn:E.
    + destruct Hm as [<-|[]]. simpl. split; [exact Hx|].
      intros p Hp Hs.
      assert (In p (filter (fun p => String.eqb (Pop.state_name p)
                                       (Peak.state_name x)) r)) as Hf
        by (apply filter_In; split; [exact Hp|now apply String.eqb_eq]).
      rewrite E in Hf. destruct Hf.
    + apply in_map_iff in Hm as (p & <- & Hp). simpl. split; [exact Hx|].
      rewrite <- E in Hp. apply filter_In in Hp as [Hp Hs].
      exists p. split; [exact Hp|]. split; [now apply String.eqb_eq|reflexivity].
  - destruct m as [x o]. simpl. intros [Hx Hm]. exists x. split; [exact Hx|].
    destruct o as [n|].
    + destruct Hm as (p & Hp & Hs & <-).
      assert (In p (filter (fun p => String.eqb (Pop.state_name p)
                                       (Peak.state_name x)) r)) as Hf
        by (apply filter_In; split; [exact Hp|now apply String.eqb_eq]).
      destruct (filter _ r) as [|p0 ms] eqn:E; [destruct Hf|].
      exact (in_map (fun p => Merged.mk x (Some (Pop.population p))) _ _ Hf).
    + rewrite filter_none; [now left|].
      intros p Hp. apply String.eqb_neq. now apply Hm.
Qed.

Lemma flat_map_length_ge {A B} (f : A -> list B) l :
  (forall x, f x <> []) -> (length l <= length (flat_map f l))%nat.
Proof.
  intros Hf. induction l as [|x l IH]; [simpl; lia|].
  cbn [flat_map length]. rewrite length_app.
  specialize (Hf x). destruct (f x); [congruence|]. cbn [length]. lia.
Qed.

Lemma merge_left_length l r : (length l <= length (merge_left l r))%nat.
Proof.
  apply flat_map_length_ge. intros x.
  destruct (filter _ r); discriminate.
Qed.

Lemma data2_In t pop row :
  In row (data2 t pop) <->
  In (PerCapita.merged row) (merge_left (data2_peaks t) pop)
  /\ PerCapita.highest_monthly_confirmed_cases_per_capita row
     = true_div (Peak.highest_monthly_confirmed_cases
                   (Merged.left (PerCapita.merged row)))
                (Merged.population (PerCapita.merged row)).
Proof.
  unfold data2, sort_by_per_capita, add_per_capita.
  rewrite sort_by_In, in_map_iff. split.
  - intros (m & <- & Hm). simpl. auto.
  - destruct row as [m f]. simpl. intros [Hm ->]. now exists m.
Qed.

Lemma data2_keeps_left t pop x :
  In x (data2_peaks t) ->
  exists row, In row (data2 t pop) /\ Merged.left (PerCapita.merged row) = x.
Proof.
  intros Hx.
  destruct (filter (fun p => String.eqb (Pop.state_name p) (Peak.state_name x))
                   pop) as [|p0 ms] eqn:E.
  - exists (PerCapita.mk (Merged.mk x None) NA). split; [|reflexivity].
    apply data2_In. simpl. split; [|reflexivity].
    apply merge_left_In. simpl. split; [exact Hx|].
    intros p Hp Hs.
    assert (In p (filter (fun p => String.eqb (Pop.state_name p)
                                     (Peak.state_name x)) pop)) as Hf
      by (apply filter_In; split; [exact Hp|now apply String.eqb_eq]).
    rewrite E in Hf. destruct Hf.
  - assert (In p0 (filter (fun p => String.eqb (Pop.state_name p)
                                     (Peak.state_name x)) pop)) as Hf
      by (rewrite E; now left).
    apply filter_In in Hf as [Hp Hs]. apply String.eqb_eq in Hs.
    exists (PerCapita.mk (Merged.mk x (Some (Pop.population p0)))
              (true_div (Peak.highest_monthly_confirmed_cases x)
                        (Some (Pop.population p0)))).
    split; [|reflexivity].
    apply data2_In. simpl. split; [|reflexivity].
    apply merge_left_In. simpl. split; [exact Hx|]. now exists p0.
Qed.

(** C10. The population merge is a left join on the exact state name.
    Every row of the peak table is the left part of some row of the
    final table, no row is invented and none is lost. A row whose state
    name equals that of a population record is joined to that record's
    population and carries its own monthly maximum divided by it; a row
    whose state name equals no state name of the population data is
    kept once, with a missing population and a missing per-capita
    value. *)
Theorem population_join_is_left_join t pop :
  (forall x, In x (data2_peaks t) ->
     exists row, In row (data2 t pop) /\ Merged.left (PerCapita.merged row) = x)
  /\ (forall row, In row (data2 t pop) ->
        In (Merged.left (PerCapita.merged row)) (data2_peaks t))
  /\ (length (data2_peaks t) <= length (data2 t pop))%nat
  /\ (forall x p, In x (data2_peaks t) -> In p pop ->
        Pop.state_name p = Peak.state_name x ->
        In (PerCapita.mk
              (Merged.mk x (Some (Pop.population p)))
              (true_div (Peak.highest_monthly_confirmed_cases x)
                        (Some (Pop.population p))))
           (data2 t pop))
  /\ (forall row n, In row (data2 t pop) ->
        Merged.population (PerCapita.merged row) = Some n ->
        (exists p, In p pop
           /\ Pop.state_name p
              = Peak.state_name (Merged.left (PerCapita.merged row))
           /\ Pop.population p = n)
        /\ (0 < n ->
            PerCapita.highest_monthly_confirmed_cases_per_capita row
            = Finite (inject_Z (Peak.highest_monthly_confirmed_cases
                                  (Merged.left (PerCapita.merged row)))
                      / inject_Z n)))
  /\ (forall x, In x (data2_peaks t) ->
        (forall p, In p pop -> Pop.state_name p <> Peak.state_name x) ->
        In (PerCapita.mk (Merged.mk x None) NA) (data2 t pop)
        /\ forall row, In row (data2 t pop) ->
             Merged.left (PerCapita.merged row) = x ->
             Merged.population (PerCapita.merged row) = None
             /\ PerCapita.highest_monthly_confirmed_cases_per_capita row = NA).
Proof.
  split; [|split; [|split; [|split; [|split]]]].
  - apply data2_keeps_left.
  - intros row Hrow. apply data2_In in Hrow as [Hm _].
    now apply merge_left_In in Hm as [Hl _].
  - unfold data2, sort_by_per_capita, add_per_capita.
    rewrite sort_by_length, length_map. apply merge_left_length.
  - intros x p Hx Hp Hs. apply data2_In. simpl. split; [|reflexivity].
    apply merge_left_In. simpl. split; [exact Hx|]. now exists p.
  - intros row n Hrow Hn. apply data2_In in Hrow as [Hm Hpc].
    apply merge_left_In in Hm as [_ Hm]. rewrite Hn in Hm. split; [exact Hm|].
    intros Hpos. rewrite Hpc, Hn. destruct n; try lia. reflexivity.
  - intros x Hx Hnone. split.
    + apply data2_In. simpl. split; [|reflexivity].
      apply merge_left_In. simpl. now split.
    + intros row Hrow Hl. apply data2_In in Hrow as [Hm Hpc].
      apply merge_left_In in Hm as [_ Hm]. rewrite Hl in Hm.
      destruct (Merged.population (PerCapita.merged row)) as [n|] eqn:En.
      * destruct Hm as (p & Hp & Hs & _). now destruct (Hnone p Hp).
      * now split.
Qed.

Lemma population_join_is_left_join_witness :
  In (PerCapita.mk (Merged.mk example_march_peak (Some 20000000))
                   (Finite (1010 # 20000000)))
     (data2 example_ny example_pop)
  /\ In (PerCapita.mk (Merged.mk example_march_peak None) NA)
        (data2 example_ny example_pop_texas).
Proof.
  assert (H : In example_march_peak (data2_peaks example_ny))
    by (vm_compute; tauto).
  pose proof (population_join_is_left_join example_ny example_pop)
    as (_ & _ & _ & Hmatch & _).
  pose proof (population_join_is_left_join example_ny example_pop_texas)
    as (_ & _ & _ & _ & _ & Hnone).
  split.
  - exact (Hmatch example_march_peak (Pop.mk "New York" 20000000) H
             (or_introl eq_refl) eq_refl).
  - refine (proj1 (Hnone example_march_peak H _)).
    intros p [<-|[]]. discriminate.
Defined.

(** ** The per-capita table *)

Lemma desc_na_last_total a b :
  desc_na_last a b = true \/ desc_na_last b a = true.
Proof.
  destruct a as [x| | | |], b as [y| | | |]; simpl; auto.
  destruct (Qlt_le_dec (double_quotient x) (double_quotient y)) as [H|H].
  - right. apply Qle_bool_iff. now apply Qlt_le_weak.
  - left. now apply Qle_bool_iff.
Qed.

(** What lines 308-314 do: the final table is in descending order of
    the per-capita column with missing values last, and the column is
    the row's own monthly maximum over the joined population. *)
Lemma data2_sorted_per_month t pop :
  Sorted (fun a b =>
            desc_na_last (PerCapita.highest_monthly_confirmed_cases_per_capita a)
                          (PerCapita.highest_monthly_confirmed_cases_per_capita b)
            = true)
         (data2 t pop)
  /\ forall row, In row (data2 t pop) ->
       PerCapita.highest_monthly_confirmed_cases_per_capita row
       = true_div (Peak.highest_monthly_confirmed_cases
                     (Merged.left (PerCapita.merged row)))
                  (Merged.population (PerCapita.merged row)).
Proof.
  split.
  - unfold data2, sort_by_per_capita.
    apply (sort_by_sorted
             (fun a b =>
                desc_na_last
                  (PerCapita.highest_monthly_confirmed_cases_per_capita a)
                  (PerCapita.highest_monthly_confirmed_cases_per_capita b))).
    intros a b. apply desc_na_last_total.
  - intros row H. now apply data2_In in H.
Qed.

Lemma key_eqb_spec a b : key_eqb a b = true <-> a = b.
Proof.
  destruct a as [[s y] m], b as [[s' y'] m']. unfold key_eqb; simpl.
  rewrite !andb_true_iff, String.eqb_eq, !Z.eqb_eq. split.
  - now intros [[-> ->] ->].
  - intros [= -> -> ->]. auto.
Qed.

(** The peak table has a row for every month of every state. *)
Lemma data2_peaks_every_month t r :
  In r t ->
  exists x, In x (data2_peaks t)
    /\ Peak.state_name x = UsStates.state_name r
    /\ Peak.year x = year (UsStates.date r)
    /\ Peak.month x = month (UsStates.date r).
Proof.
  intros Hr. unfold data2_peaks, sort_by_highest.
  set (d := sql_query t).
  set (pr := Peak.mk (UsStates.state_name r) (UsStates.date r)
                     (year (UsStates.date r)) (month (UsStates.date r))
                     (month_window_max t r)).
  assert (Hpr : In pr d) by (apply in_map_iff; now exists r).
  assert (Hg : In pr (filter (fun x => key_eqb (group_key x) (group_key pr)) d)).
  { apply filter_In. split; [exact Hpr|]. now apply key_eqb_spec. }
  destruct (filter (fun x => key_eqb (group_key x) (group_key pr)) d)
    as [|g0 g] eqn:E; [destruct Hg|].
  eexists. split.
  - apply sort_by_In. unfold groupby_month_max. apply in_flat_map.
    exists (group_key pr). split.
    + apply sort_by_In. apply unique_In; [apply key_eqb_spec|].
      now apply in_map.
    + fold d. rewrite E. simpl. left. reflexivity.
  - simpl. auto.
Qed.

(** C1 fails on the code. The final table is not one row per state:
    whenever a state has records in two different months, it has two
    different rows for that state. On the four-day example with
    population 20,000,000 the state's all-time peak is 1030 (the dict
    of lines 260-264 has it), yet the final table has a row per month,
    and the row of March divides that month's maximum 1010 by the
    population: its per-capita value is not the peak over the
    population. *)
Theorem per_capita_is_per_month :
  (forall t pop r1 r2,
     In r1 t -> In r2 t ->
     UsStates.state_name r1 = UsStates.state_name r2 ->
     to_period_M (UsStates.date r1) <> to_period_M (UsStates.date r2) ->
     exists row1 row2,
       In row1 (data2 t pop) /\ In row2 (data2 t pop)
       /\ Peak.state_name (Merged.left (PerCapita.merged row1))
          = UsStates.state_name r1
       /\ Peak.state_name (Merged.left (PerCapita.merged row2))
          = UsStates.state_name r1
       /\ row1 <> row2)
  /\ states_and_highest_month (data2_peaks example_ny)
     = [("New York"%string, 1030)]
  /\ data2 example_ny example_pop
     = [ PerCapita.mk (Merged.mk example_april_peak (Some 20000000))
                      (Finite (1030 # 20000000));
         PerCapita.mk (Merged.mk example_march_peak (Some 20000000))
                      (Finite (1010 # 20000000)) ]
  /\ true_div 1030 (Some 20000000) = Finite (1030 # 20000000)
  /\ ~ (1010 # 20000000 == 1030 # 20000000)%Q.
Proof.
  split.
  { intros t pop r1 r2 H1 H2 Hs Hm.
    destruct (data2_peaks_every_month t r1 H1) as (x1 & Hx1 & S1 & Y1 & M1).
    destruct (data2_peaks_every_month t r2 H2) as (x2 & Hx2 & S2 & Y2 & M2).
    destruct (data2_keeps_left t pop x1 Hx1) as (row1 & Hr1 & L1).
    destruct (data2_keeps_left t pop x2 Hx2) as (row2 & Hr2 & L2).
    exists row1, row2. rewrite L1, L2.
    repeat split; auto; [congruence|].
    intros ->. apply Hm. unfold to_period_M. congruence. }
  split; [vm_compute; reflexivity|].
  split; [vm_compute; reflexivity|].
  split; [vm_compute; reflexivity|].
  intros H. vm_compute in H. discriminate.
Qed.

Lemma per_capita_is_per_month_witness :
  exists row1 row2,
    In row1 (data2 example_ny example_pop)
    /\ In row2 (data2 example_ny example_pop)
    /\ Peak.state_name (Merged.left (PerCapita.merged row1)) = "New York"%string
    /\ Peak.state_name (Merged.left (PerCapita.merged row2)) = "New York"%string
    /\ row1 <> row2.
Proof.
  refine (proj1 per_capita_is_per_month example_ny example_pop
            (UsStates.mk "New York" (mkDate 2020 3 31) 1010 105)
            (UsStates.mk "New York" (mkDate 2020 4 1) 1005 103) _ _ _ _).
  - simpl; auto.
  - simpl; auto.
  - reflexivity.
  - discriminate.
Defined.

(* ================================================================= *)
(** * Further properties of the pipeline *)

(** ** Permutations, filters and groups *)

Lemma Permutation_filter {A} (f : A -> bool) l l' :
  Permutation l l' -> Permutation (filter f l) (filter f l').
Proof.
  induction 1 as [|x l l' _ IH|x y l|l l' l'' _ IH1 _ IH2]; simpl.
  - constructor.
  - destruct (f x); [now constructor|exact IH].
  - destruct (f x), (f y); try reflexivity. apply perm_swap.
  - now transitivity (filter f l').
Qed.

Lemma Permutation_non_null {A} (l l' : list (option A)) :
  Permutation l l' -> Permutation (non_null l) (non_null l').
Proof.
  induction 1 as [|x l l' _ IH|x y l|l l' l'' _ IH1 _ IH2]; simpl.
  - constructor.
  - destruct x; [now constructor|exact IH].
  - destruct x, y; try reflexivity. apply perm_swap.
  - now transitivity (non_null l').
Qed.

Lemma Zsum_perm l l' : Permutation l l' -> Zsum l = Zsum l'.
Proof.
  induction 1 as [|x l l' _ IH|x y l|l l' l'' _ IH1 _ IH2]; simpl; lia.
Qed.

Lemma Zsum_app l l' : Zsum (l ++ l') = Zsum l + Zsum l'.
Proof. induction l as [|a l IH]; simpl; lia. Qed.

Lemma filter_map_comm {A B} (f : A -> B) (g : B -> bool) l :
  filter g (map f l) = map f (filter (fun x => g (f x)) l).
Proof.
  induction l as [|a l IH]; simpl; [reflexivity|].
  destruct (g (f a)); simpl; now rewrite IH.
Qed.

Lemma map_flat_map_comm {A B C} (f : B -> C) (g : A -> list B) l :
  map f (flat_map g l) = flat_map (fun x => map f (g x)) l.
Proof.
  induction l as [|a l IH]; simpl; [reflexivity|].
  now rewrite map_app, IH.
Qed.

Section GroupPartition.
Context {A K : Type} (eqb : K -> K -> bool) (key : A -> K).
Hypothesis eqb_spec : forall a b, eqb a b = true <-> a = b.

Lemma flat_map_app_perm {B} (f g : K -> list B) ks :
  Permutation (flat_map (fun k => f k ++ g k) ks)
              (flat_map f ks ++ flat_map g ks).
Proof.
  induction ks as [|k ks IH]; simpl; [constructor|].
  rewrite IH, <- !app_assoc. apply Permutation_app_head.
  rewrite !app_assoc. apply Permutation_app_tail. apply Permutation_app_comm.
Qed.

Lemma flat_map_indicator k0 (x : A) ks :
  NoDup ks -> In k0 ks ->
  flat_map (fun k => if eqb k0 k then [x] else []) ks = [x].
Proof.
  induction 1 as [|k ks Hk Hnd IH]; simpl; intros Hin; [tauto|].
  destruct Hin as [->|Hin].
  - assert (eqb k0 k0 = true) as -> by now apply eqb_spec.
    simpl. f_equal.
    clear IH Hnd. induction ks as [|k ks IH]; simpl; [reflexivity|].
    destruct (eqb k0 k) eqn:E.
    + apply eqb_spec in E. subst. exfalso. apply Hk. now left.
    + apply IH. intros H. apply Hk. now right.
  - destruct (eqb k0 k) eqn:E.
    + apply eqb_spec in E. now subst.
    + now apply IH.
Qed.

(** The groups of a key, taken over all keys, rearrange the rows. *)
Lemma groups_partition ks l :
  NoDup ks -> (forall x, In x l -> In (key x) ks) ->
  Permutation (flat_map (fun k => filter (fun r => eqb (key r) k) l) ks) l.
Proof.
  intros Hnd. induction l as [|x l IH]; intros Hin.
  - simpl. induction ks as [|k ks IHk]; simpl; [constructor|].
    inversion Hnd; subst. now apply IHk.
  - rewrite (flat_map_ext _
      (fun k => (if eqb (key x) k then [x] else [])
                ++ filter (fun r => eqb (key r) k) l)).
    + rewrite flat_map_app_perm, flat_map_indicator.
      * simpl. constructor. apply IH. intros y Hy. apply Hin. now right.
      * exact Hnd.
      * apply Hin. now left.
    + intros k. simpl. now destruct (eqb (key x) k).
Qed.
End GroupPartition.

(** ** The deltas of a state telescope *)

Lemma last_cons_default {A} (r : A) p u : last (r :: p) u = last p r.
Proof.
  revert r u. induction p as [|a p IH]; intros r u; [reflexivity|].
  change (last (r :: a :: p) u) with (last (a :: p) u).
  now rewrite !IH.
Qed.

Lemma lag_rows_sum u p :
  Zsum (non_null (map Day.confirmed_cases_day (lag_rows (Some u) p)))
  = UsStates.confirmed_cases (last p u) - UsStates.confirmed_cases u
  /\ Zsum (non_null (map Day.deaths_day (lag_rows (Some u) p)))
     = UsStates.deaths (last p u) - UsStates.deaths u.
Proof.
  revert u. induction p as [|r p IH]; intros u.
  - simpl. lia.
  - rewrite last_cons_default. destruct (IH r) as [H1 H2].
    cbn [lag_rows map option_map sql_sub Day.confirmed_cases_day
         Day.deaths_day non_null Zsum fold_right].
    unfold Zsum in H1, H2. rewrite H1, H2. lia.
Qed.

(** X1. Within a state, the raw daily deltas add up to the last
    cumulative count minus the first one, for cases and for deaths. *)
Theorem deltas_telescope t s first rest :
  window t s = first :: rest ->
  Zsum (state_cases_deltas t s)
  = UsStates.confirmed_cases (last rest first) - UsStates.confirmed_cases first
  /\ Zsum (state_deaths_deltas t s)
     = UsStates.deaths (last rest first) - UsStates.deaths first.
Proof.
  intros Hw. unfold state_cases_deltas, state_deaths_deltas.
  rewrite day_rows_of_us_states_day, Hw.
  cbn [lag_rows map option_map sql_sub Day.confirmed_cases_day
       Day.deaths_day non_null].
  apply lag_rows_sum.
Qed.

Lemma deltas_telescope_witness :
  Zsum (state_cases_deltas example_ny "New York") = 1030 - 1000
  /\ Zsum (state_deaths_deltas example_ny "New York") = 110 - 100.
Proof.
  exact (deltas_telescope example_ny "New York"
           (UsStates.mk "New York" (mkDate 2020 3 30) 1000 100)
           [ UsStates.mk "New York" (mkDate 2020 3 31) 1010 105;
             UsStates.mk "New York" (mkDate 2020 4 1) 1005 103;
             UsStates.mk "New York" (mkDate 2020 4 2) 1030 110 ]
           eq_refl).
Defined.

(** ** One result row per table row *)

Lemma lag_rows_keys prev p : map day_key (lag_rows prev p) = map table_key p.
Proof.
  revert prev. induction p as [|r p IH]; intros prev; simpl; [reflexivity|].
  now rewrite IH.
Qed.

Lemma us_states_day_keys t :
  Permutation (map day_key (us_states_day t)) (map table_key t).
Proof.
  unfold us_states_day. rewrite map_flat_map_comm.
  transitivity
    (map table_key
       (flat_map (fun s => filter (fun r => String.eqb (UsStates.state_name r) s) t)
                 (unique String.eqb (map UsStates.state_name t)))).
  - rewrite map_flat_map_comm.
    induction (unique String.eqb (map UsStates.state_name t)) as [|s ks IH];
      simpl; [constructor|].
    apply Permutation_app; [|exact IH].
    rewrite lag_rows_keys. apply Permutation_map, window_perm.
  - apply Permutation_map.
    apply (groups_partition String.eqb UsStates.state_name String.eqb_eq).
    + apply unique_NoDup, String.eqb_eq.
    + intros x Hx. apply unique_In; [apply String.eqb_eq|]. now apply in_map.
Qed.

Lemma query_rows_perm t :
  Permutation (query_rows t)
              (map (select_row_value (us_states_day t)) (us_states_day t)).
Proof. apply sort_by_perm. Qed.

(** X2. The query returns exactly one row for every row of the table,
    with the same state and date: the (state, date) keys of the result
    are a rearrangement of those of the table, in date order. *)
Theorem query_keeps_every_row t :
  Permutation (map data_key (query_rows t)) (map table_key t)
  /\ length (query_rows t) = length t
  /\ Sorted (fun a b => date_leb (Data.date a) (Data.date b) = true)
            (query_rows t).
Proof.
  assert (H : Permutation (map data_key (query_rows t)) (map table_key t)).
  { rewrite (Permutation_map data_key (query_rows_perm t)), map_map.
    rewrite <- (us_states_day_keys t). apply Permutation_refl. }
  split; [exact H|]. split.
  - apply Permutation_length in H. now rewrite !length_map in H.
  - apply (sort_by_sorted (fun a b => date_leb (Data.date a) (Data.date b))).
    intros a b. apply date_leb_total.
Qed.

(** ** Null counts *)

Lemma null_count_perm {A} (l l' : list (option A)) :
  Permutation l l' -> null_count l = null_count l'.
Proof.
  intros H. unfold null_count.
  now apply Permutation_length, Permutation_filter.
Qed.

Lemma null_count_app {A} (l l' : list (option A)) :
  null_count (l ++ l') = (null_count l + null_count l')%nat.
Proof. unfold null_count. now rewrite filter_app, length_app. Qed.

Lemma lag_rows_no_null u p :
  null_count (map Day.confirmed_cases_day (lag_rows (Some u) p)) = 0%nat
  /\ null_count (map Day.deaths_day (lag_rows (Some u) p)) = 0%nat.
Proof.
  revert u. induction p as [|r p IH]; intros u; [split; reflexivity|].
  destruct (IH r) as [H1 H2]. unfold null_count in *. simpl.
  now rewrite H1, H2.
Qed.

Lemma window_present t s :
  In s (map UsStates.state_name t) -> window t s <> [].
Proof.
  intros Hs Hw. apply in_map_iff in Hs as (r & Hr & Hin).
  assert (In r (window t s)) as H.
  { apply (Permutation_in _ (Permutation_sym (window_perm t s))).
    apply filter_In. split; [exact Hin|]. now apply String.eqb_eq. }
  rewrite Hw in H. destruct H.
Qed.

Lemma us_states_day_null_count t :
  null_count (map Day.confirmed_cases_day (us_states_day t))
  = length (unique String.eqb (map UsStates.state_name t))
  /\ null_count (map Day.deaths_day (us_states_day t))
     = length (unique String.eqb (map UsStates.state_name t)).
Proof.
  unfold us_states_day.
  assert (Hks : forall s, In s (unique String.eqb (map UsStates.state_name t)) ->
                          window t s <> []).
  { intros s Hs. apply window_present.
    exact (proj1 (unique_In String.eqb String.eqb_eq s _) Hs). }
  induction (unique String.eqb (map UsStates.state_name t)) as [|s ks IH].
  - split; reflexivity.
  - cbn [flat_map]. rewrite !map_app, !null_count_app.
    destruct IH as [IH1 IH2]; [intros k Hk; apply Hks; now right|].
    rewrite IH1, IH2.
    destruct (window t s) as [|u p] eqn:E;
      [exfalso; apply (Hks s); [now left|exact E]|].
    destruct (lag_rows_no_null u p) as [H1 H2].
    cbn [lag_rows map option_map sql_sub Day.confirmed_cases_day Day.deaths_day].
    unfold null_count in *. cbn [filter is_missing length].
    rewrite H1, H2. split; reflexivity.
Qed.

(** X3. In the query result the number of rows with a missing case
    delta, and with a missing death delta, is the number of distinct
    states of the table (one first day per state); a z-score is missing
    at least on those rows. *)
Theorem null_deltas_one_per_state t :
  null_count (map Data.confirmed_cases_day (query_rows t))
  = length (unique String.eqb (map UsStates.state_name t))
  /\ null_count (map Data.deaths_day (query_rows t))
     = length (unique String.eqb (map UsStates.state_name t))
  /\ (length (unique String.eqb (map UsStates.state_name t))
      <= null_count (map Data.confirmed_cases_day_zscore (query_rows t)))%nat
  /\ (length (unique String.eqb (map UsStates.state_name t))
      <= null_count (map Data.deaths_day_zscore (query_rows t)))%nat.
Proof.
  destruct (us_states_day_null_count t) as [Hc Hd].
  assert (Ec : null_count (map Data.confirmed_cases_day (query_rows t))
               = length (unique String.eqb (map UsStates.state_name t))).
  { rewrite (null_count_perm _ _
               (Permutation_map Data.confirmed_cases_day (query_rows_perm t))).
    now rewrite map_map. }
  assert (Ed : null_count (map Data.deaths_day (query_rows t))
               = length (unique String.eqb (map UsStates.state_name t))).
  { rewrite (null_count_perm _ _
               (Permutation_map Data.deaths_day (query_rows_perm t))).
    now rewrite map_map. }
  split; [exact Ec|]. split; [exact Ed|].
  assert (Hle : forall (f : Data.row -> option Z) (g : Data.row -> option R) l,
             (forall r, In r l -> f r = None -> g r = None) ->
             (null_count (map f l) <= null_count (map g l))%nat).
  { intros f g l. unfold null_count.
    induction l as [|r l IH]; intros H; simpl; [lia|].
    assert (IH' := IH (fun x Hx => H x (or_intror Hx))).
    destruct (f r) eqn:Ef; simpl.
    - destruct (g r); simpl; lia.
    - rewrite (H r (or_introl eq_refl) Ef). simpl. lia. }
  split.
  - rewrite <- Ec. apply Hle. intros r Hr.
    apply (proj1 (proj2 (proj2 (query_rows_zscores t r Hr)))).
  - rewrite <- Ed. apply Hle. intros r Hr.
    apply (proj2 (proj2 (proj2 (query_rows_zscores t r Hr)))).
Qed.

(** ** The z-scores of a state are standardised *)

Lemma Rsum_perm l l' : Permutation l l' -> Rsum l = Rsum l'.
Proof.
  unfold Rsum.
  induction 1 as [|x l l' _ IH|x y l|l l' l'' _ IH1 _ IH2]; simpl;
    [reflexivity| | |congruence].
  - now rewrite IH.
  - ring.
Qed.

Lemma data_rows_of_query t s :
  Permutation (data_rows_of s (query_rows t))
              (map (select_row_value (us_states_day t))
                   (day_rows_of s (us_states_day t))).
Proof.
  unfold data_rows_of.
  rewrite (Permutation_filter _ _ _ (query_rows_perm t)), filter_map_comm.
  apply Permutation_refl.
Qed.

Lemma day_rows_of_state s d r : In r (day_rows_of s d) -> Day.state_name r = s.
Proof. intros H. apply filter_In in H as [_ H]. now apply String.eqb_eq. Qed.

Lemma state_zscore_columns t s :
  let d := us_states_day t in
  let cc := map Day.confirmed_cases_day (day_rows_of s d) in
  let dc := map Day.deaths_day (day_rows_of s d) in
  Permutation (map Data.confirmed_cases_day_zscore (data_rows_of s (query_rows t)))
              (map (fun v => zscore_value v cc) cc)
  /\ Permutation (map Data.deaths_day_zscore (data_rows_of s (query_rows t)))
                 (map (fun v => zscore_value v dc) dc).
Proof.
  intros d cc dc. subst cc dc.
  split.
  - rewrite (Permutation_map _ (data_rows_of_query t s)), !map_map.
    fold d. erewrite map_ext_in; [apply Permutation_refl|].
    intros r Hr. simpl. now rewrite (day_rows_of_state _ _ _ Hr).
  - rewrite (Permutation_map _ (data_rows_of_query t s)), !map_map.
    fold d. erewrite map_ext_in; [apply Permutation_refl|].
    intros r Hr. simpl. now rewrite (day_rows_of_state _ _ _ Hr).
Qed.

(** The defined z-scores of a column, by the cases of its deviation. *)
Lemma zscore_column_values col col' :
  non_null (map (fun v => zscore_value v col) col')
  = match NULLIF (STDDEV col) 0%R, AVG col with
    | Some sd, Some m => map (fun v => (IZR v - m) / sd)%R (non_null col')
    | _, _ => []
    end.
Proof.
  unfold zscore_value.
  destruct (NULLIF (STDDEV col) 0%R) as [sd|], (AVG col) as [m|];
    induction col' as [|[v|] col' IH]; simpl; try reflexivity;
    try exact IH; now rewrite IH.
Qed.

Lemma STDDEV_defined col sd :
  NULLIF (STDDEV col) 0%R = Some sd ->
  (2 <= length (non_null col))%nat
  /\ sd = sample_stddev (non_null col) /\ sd <> 0%R
  /\ AVG col = Some (mean (non_null col)).
Proof.
  intros H. pose proof (NULLIF_zero_free _ _ H) as Hnz.
  unfold STDDEV, AVG in *.
  destruct (Nat.ltb_spec (length (non_null col)) 2) as [Hlt|Hge];
    [discriminate|].
  simpl in H. destruct (Req_dec_T _ 0%R); [discriminate|].
  injection H as <-.
  destruct (non_null col); [simpl in Hge; lia|]. auto.
Qed.

Lemma Rsum_standardised m sd ds :
  Rsum (map (fun v => (IZR v - m) / sd)%R ds)
  = ((Rsum (map IZR ds) - INR (length ds) * m) / sd)%R.
Proof.
  induction ds as [|v ds IH].
  - simpl. unfold Rdiv. ring.
  - cbn [map Rsum fold_right length]. fold (Rsum (map IZR ds)).
    fold (Rsum (map (fun v => (IZR v - m) / sd)%R ds)).
    rewrite IH, S_INR. unfold Rdiv. ring.
Qed.

Lemma INR_mean ds :
  ds <> [] -> (INR (length ds) * mean ds)%R = Rsum (map IZR ds).
Proof.
  intros H. unfold mean. field. apply not_0_INR.
  destruct ds; [congruence|discriminate].
Qed.

Lemma zscore_column_sum col :
  Rsum (non_null (map (fun v => zscore_value v col) col)) = 0%R.
Proof.
  rewrite zscore_column_values.
  destruct (NULLIF (STDDEV col) 0%R) as [sd|] eqn:E; [|reflexivity].
  destruct (STDDEV_defined _ _ E) as (Hn & _ & _ & ->).
  rewrite Rsum_standardised, INR_mean.
  - unfold Rdiv. ring.
  - intros H0. rewrite H0 in Hn. simpl in Hn. lia.
Qed.

(** X4. For every state, the defined case z-scores add up to zero, and
    so do the defined death z-scores: each series is centred on its
    state's own mean. *)
Theorem zscores_sum_to_zero t s :
  Rsum (state_cases_zscores t s) = 0%R
  /\ Rsum (state_deaths_zscores t s) = 0%R.
Proof.
  destruct (state_zscore_columns t s) as [Hc Hd].
  unfold state_cases_zscores, state_deaths_zscores. split.
  - rewrite (Rsum_perm _ _ (Permutation_non_null _ _ Hc)).
    apply zscore_column_sum.
  - rewrite (Rsum_perm _ _ (Permutation_non_null _ _ Hd)).
    apply zscore_column_sum.
Qed.

Lemma Rsum_nonneg l : Forall (fun x => 0 <= x)%R l -> (0 <= Rsum l)%R.
Proof.
  unfold Rsum. induction 1 as [|x l Hx _ IH]; simpl; [lra|].
  now apply Rplus_le_le_0_compat.
Qed.

Lemma sum_sq_dev_nonneg ds : (0 <= sum_sq_dev ds)%R.
Proof.
  unfold sum_sq_dev. apply Rsum_nonneg. apply Forall_forall.
  intros x Hx. apply in_map_iff in Hx as (v & <- & _).
  exact (Rle_0_sqr (IZR v - mean ds)).
Qed.

Lemma Rsum_sq_standardised m sd ds :
  Rsum (map (fun z => z * z)%R (map (fun v => (IZR v - m) / sd)%R ds))
  = (Rsum (map (fun v => (IZR v - m) * (IZR v - m))%R ds) * (/ sd * / sd))%R.
Proof.
  unfold Rsum. induction ds as [|v ds IH]; simpl; [ring|].
  rewrite IH. unfold Rdiv. ring.
Qed.

Lemma zscore_column_squares col :
  (2 <= length (non_null col))%nat ->
  sample_stddev (non_null col) <> 0%R ->
  Rsum (map (fun z => z * z)%R
            (non_null (map (fun v => zscore_value v col) col)))
  = (INR (length (non_null col)) - 1)%R.
Proof.
  intros Hn Hsd.
  assert (E : NULLIF (STDDEV col) 0%R = Some (sample_stddev (non_null col))).
  { unfold STDDEV.
    destruct (Nat.ltb_spec (length (non_null col)) 2); [lia|]. simpl.
    now destruct (Req_dec_T (sample_stddev (non_null col)) 0%R). }
  rewrite zscore_column_values, E.
  destruct (STDDEV_defined _ _ E) as (_ & _ & _ & ->).
  rewrite Rsum_sq_standardised. fold (sum_sq_dev (non_null col)).
  set (ds := non_null col) in *.
  assert (Hn1 : (0 < INR (length ds) - 1)%R).
  { apply le_INR in Hn. simpl in Hn. lra. }
  assert (Hq : (0 <= sum_sq_dev ds / (INR (length ds) - 1))%R).
  { apply Rmult_le_pos; [apply sum_sq_dev_nonneg|].
    left. now apply Rinv_0_lt_compat. }
  assert (Hsq : (sample_stddev ds * sample_stddev ds
                 = sum_sq_dev ds / (INR (length ds) - 1))%R)
    by (apply sqrt_sqrt, Hq).
  assert (Hss : sum_sq_dev ds <> 0%R).
  { intros H0. apply Hsd. unfold sample_stddev. rewrite H0.
    unfold Rdiv. rewrite Rmult_0_l. apply sqrt_0. }
  rewrite <- Rinv_mult, Hsq. field. split; [lra|exact Hss].
Qed.

(** X5. In ideal real arithmetic (the rounding of FLOAT64 is not
    modelled), for a state with at least two defined deltas and a
    non-zero sample deviation, the squares of its defined z-scores add
    up to the number of defined deltas minus one: the z-score series
    has unit sample variance. *)
Theorem zscores_unit_sample_variance t s :
  ((2 <= length (state_cases_deltas t s))%nat ->
   sample_stddev (state_cases_deltas t s) <> 0%R ->
   Rsum (map (fun z => z * z)%R (state_cases_zscores t s))
   = (INR (length (state_cases_deltas t s)) - 1)%R)
  /\ ((2 <= length (state_deaths_deltas t s))%nat ->
      sample_stddev (state_deaths_deltas t s) <> 0%R ->
      Rsum (map (fun z => z * z)%R (state_deaths_zscores t s))
      = (INR (length (state_deaths_deltas t s)) - 1)%R).
Proof.
  destruct (state_zscore_columns t s) as [Hc Hd].
  unfold state_cases_zscores, state_deaths_zscores,
    state_cases_deltas, state_deaths_deltas.
  split; intros Hn Hsd.
  - rewrite (Rsum_perm _ _
               (Permutation_map _ (Permutation_non_null _ _ Hc))).
    now apply zscore_column_squares.
  - rewrite (Rsum_perm _ _
               (Permutation_map _ (Permutation_non_null _ _ Hd))).
    now apply zscore_column_squares.
Qed.

Lemma zscores_unit_sample_variance_witness :
  Rsum (map (fun z => z * z)%R (state_cases_zscores example_ny "New York"))
  = (INR (length (state_cases_deltas example_ny "New York")) - 1)%R.
Proof.
  apply (proj1 (zscores_unit_sample_variance example_ny "New York")).
  - rewrite example_ny_cases_deltas. simpl. lia.
  - rewrite example_ny_cases_deltas, example_sample_stddev. lra.
Defined.

(** ** What cleaning guarantees *)

Lemma clean_as_map data :
  clean data
  = map (fun r => Data.mk (Data.date r) (Data.state_name r)
                          (clip_lower0 (Data.confirmed_cases_day r))
                          (clip_lower0 (Data.deaths_day r))
                          (Data.confirmed_cases_day_zscore r)
                          (Data.deaths_day_zscore r)) data.
Proof.
  unfold clean, clip_deaths_day, clip_confirmed_cases_day.
  rewrite map_map. reflexivity.
Qed.

Lemma clip_lower0_fixed x :
  (forall v, x = Some v -> 0 <= v) -> clip_lower0 x = x.
Proof.
  destruct x as [v|]; simpl; intros H; [|reflexivity].
  f_equal. specialize (H v eq_refl). lia.
Qed.

Lemma clip_lower0_missing x : is_missing (clip_lower0 x) = is_missing x.
Proof. now destruct x. Qed.

(** X6. Cleaning keeps every row in place with its state and date,
    leaves no negative delta (the checks of lines 103-104 hold
    afterwards), keeps a missing delta missing, and returns a table
    without negative deltas unchanged. *)
Theorem clean_leaves_no_negative data :
  map data_key (clean data) = map data_key data
  /\ (forall r, In r (clean data) ->
        (forall v, Data.confirmed_cases_day r = Some v -> 0 <= v)
        /\ (forall v, Data.deaths_day r = Some v -> 0 <= v))
  /\ null_count (map Data.confirmed_cases_day (clean data))
     = null_count (map Data.confirmed_cases_day data)
  /\ null_count (map Data.deaths_day (clean data))
     = null_count (map Data.deaths_day data)
  /\ ((forall r, In r data ->
         (forall v, Data.confirmed_cases_day r = Some v -> 0 <= v)
         /\ (forall v, Data.deaths_day r = Some v -> 0 <= v)) ->
      clean data = data).
Proof.
  rewrite clean_as_map. split; [|split; [|split; [|split]]].
  - rewrite map_map. reflexivity.
  - intros r Hr. apply in_map_iff in Hr as (r0 & <- & _). simpl.
    split; intros v; apply clip_lower0_nonneg.
  - unfold null_count. rewrite map_map. simpl.
    induction data as [|r data IH]; simpl; [reflexivity|].
    rewrite clip_lower0_missing. destruct (is_missing _); simpl; now rewrite IH.
  - unfold null_count. rewrite map_map. simpl.
    induction data as [|r data IH]; simpl; [reflexivity|].
    rewrite clip_lower0_missing. destruct (is_missing _); simpl; now rewrite IH.
  - intros H. rewrite <- (map_id data) at 2. apply map_ext_in.
    intros r Hr. destruct (H r Hr) as [Hc Hd].
    rewrite (clip_lower0_fixed _ Hc), (clip_lower0_fixed _ Hd).
    now destruct r.
Qed.

Lemma clean_leaves_no_negative_witness :
  clean [Data.mk (mkDate 2020 3 31) "New York" (Some 10) (Some 5) None None]
  = [Data.mk (mkDate 2020 3 31) "New York" (Some 10) (Some 5) None None].
Proof.
  apply (proj2 (proj2 (proj2 (proj2 (clean_leaves_no_negative _))))).
  intros r [<-|[]]. simpl. split; intros v [= <-]; lia.
Defined.

(** ** Monthly totals against the cumulative counter *)

Lemma Zsum_filter_bounds {A} (f : A -> Z) (g : A -> bool) l :
  (forall x, In x l -> 0 <= f x) ->
  0 <= Zsum (map f (filter g l)) <= Zsum (map f l).
Proof.
  induction l as [|a l IH]; intros H; [simpl; lia|].
  assert (0 <= f a) by (apply H; now left).
  assert (0 <= Zsum (map f (filter g l)) <= Zsum (map f l))
    by (apply IH; intros x Hx; apply H; now right).
  simpl. destruct (g a); simpl; lia.
Qed.

(** When no delta is negative and the state's total stays below 2^63,
    no monthly sum wraps. *)
Lemma monthly_deaths_exact ny :
  (forall x, In x ny -> 0 <= or_zero (Ny_deaths_day x)) ->
  Zsum (map (fun x => or_zero (Ny_deaths_day x)) ny) < 2 ^ 63 ->
  monthly_deaths ny
  = map (fun m => (m, Zsum (map (fun x => or_zero (Ny_deaths_day x))
                                (month_group m ny))))
        (sort_by period_leb (unique period_eqb (map Ny.month ny))).
Proof.
  intros Hnn Hlt. unfold monthly_deaths. apply map_ext. intros m.
  f_equal. rewrite sum_skipna_or_zero, map_map. apply wrap64_id.
  pose proof (Zsum_filter_bounds (fun x => or_zero (Ny_deaths_day x))
                (fun r => period_eqb (Ny.month r) m) ny Hnn) as H.
  unfold month_group. lia.
Qed.

Lemma monthly_deaths_total ny :
  (forall x, In x ny -> 0 <= or_zero (Ny_deaths_day x)) ->
  Zsum (map (fun x => or_zero (Ny_deaths_day x)) ny) < 2 ^ 63 ->
  Zsum (map snd (monthly_deaths ny))
  = Zsum (map (fun r => or_zero (Ny_deaths_day r)) ny).
Proof.
  intros Hnn Hlt. rewrite (monthly_deaths_exact ny Hnn Hlt), map_map. simpl.
  apply (group_sums_total period_eqb Ny.month
           (fun r => or_zero (Ny_deaths_day r)) period_eqb_spec).
  - eapply Permutation_NoDup; [symmetry; apply sort_by_perm|].
    apply unique_NoDup, period_eqb_spec.
  - intros x Hx. apply sort_by_In.
    apply unique_In; [apply period_eqb_spec|]. now apply in_map.
Qed.

Lemma cleaned_slice_nonneg s data x :
  In x (state_data s (clean data)) -> 0 <= or_zero (Ny_deaths_day x).
Proof.
  intros Hx. apply state_data_In in Hx as (c & Hc & _ & ->).
  apply clean_row in Hc as (r & _ & ->). unfold Ny_deaths_day. simpl.
  destruct (Data.deaths_day r); simpl; lia.
Qed.

(** The death deltas the aggregation reads are the clipped LAG deltas
    of the state. *)
Lemma cleaned_deaths_column t s :
  Permutation
    (map Ny_deaths_day (state_data s (clean (query_rows t))))
    (map (fun r => clip_lower0 (Day.deaths_day r))
         (day_rows_of s (us_states_day t))).
Proof.
  unfold state_data. rewrite map_map.
  unfold Ny_deaths_day. simpl.
  rewrite (Permutation_map _ (sort_by_perm _ _)).
  rewrite clean_as_map, filter_map_comm, map_map. simpl.
  fold (data_rows_of s (query_rows t)).
  rewrite (Permutation_map _ (data_rows_of_query t s)), map_map.
  apply Permutation_refl.
Qed.

Lemma Zsum_or_zero col : Zsum (map or_zero col) = Zsum (non_null col).
Proof. symmetry. apply Zsum_non_null. Qed.

Lemma clipped_sum_max (col : list (option Z)) :
  Zsum (map or_zero (map clip_lower0 col))
  = Zsum (map (Z.max 0) (non_null col)).
Proof.
  induction col as [|[v|] col IH]; simpl; [reflexivity| |exact IH].
  now rewrite IH.
Qed.

Lemma clipped_sum_ge (col : list (option Z)) :
  Zsum (map or_zero col) <= Zsum (map or_zero (map clip_lower0 col)).
Proof.
  induction col as [|[v|] col IH]; simpl; lia.
Qed.

Lemma clipped_sum_eq (col : list (option Z)) :
  Forall (fun v => 0 <= v) (non_null col) ->
  Zsum (map or_zero (map clip_lower0 col)) = Zsum (map or_zero col).
Proof.
  induction col as [|[v|] col IH]; simpl; intros H; [reflexivity| |auto].
  inversion H; subst. rewrite IH by assumption. lia.
Qed.

(** X7. For a state of the table whose clipped daily death deltas add
    up to less than 2^63 (so that no 64-bit monthly sum wraps), every
    monthly death total is non-negative; the totals add up to at least
    the rise of the cumulative death counter from the state's first to
    its last day, and to exactly that rise when no daily delta is
    negative. *)
Theorem monthly_totals_cover_cumulative t s first rest :
  window t s = first :: rest ->
  Zsum (map (Z.max 0) (state_deaths_deltas t s)) < 2 ^ 63 ->
  let md := monthly_deaths (state_data s (clean (query_rows t))) in
  (forall m total, In (m, total) md -> 0 <= total)
  /\ UsStates.deaths (last rest first) - UsStates.deaths first
     <= Zsum (map snd md)
  /\ (Forall (fun v => 0 <= v) (state_deaths_deltas t s) ->
      Zsum (map snd md)
      = UsStates.deaths (last rest first) - UsStates.deaths first).
Proof.
  intros Hw Hlt md.
  set (ny := state_data s (clean (query_rows t))) in *.
  assert (Hraw : Zsum (map or_zero (map Day.deaths_day
                                       (day_rows_of s (us_states_day t))))
                 = UsStates.deaths (last rest first) - UsStates.deaths first).
  { rewrite Zsum_or_zero, day_rows_of_us_states_day, Hw.
    cbn [lag_rows map option_map sql_sub Day.deaths_day non_null].
    apply lag_rows_sum. }
  assert (Hnn : forall x, In x ny -> 0 <= or_zero (Ny_deaths_day x))
    by (intros x; apply cleaned_slice_nonneg).
  assert (Hcol : Zsum (map (fun x => or_zero (Ny_deaths_day x)) ny)
                 = Zsum (map or_zero
                           (map clip_lower0
                                (map Day.deaths_day
                                     (day_rows_of s (us_states_day t)))))).
  { unfold ny. rewrite <- (map_map Ny_deaths_day or_zero).
    rewrite (Zsum_perm _ _ (Permutation_map or_zero (cleaned_deaths_column t s))).
    now rewrite !map_map. }
  assert (Hb : Zsum (map (fun x => or_zero (Ny_deaths_day x)) ny) < 2 ^ 63).
  { rewrite Hcol, clipped_sum_max. exact Hlt. }
  assert (Htot : Zsum (map snd md)
                 = Zsum (map or_zero
                           (map clip_lower0
                                (map Day.deaths_day
                                     (day_rows_of s (us_states_day t)))))).
  { subst md. now rewrite (monthly_deaths_total ny Hnn Hb). }
  split; [|split].
  - intros m total Hin. subst md.
    rewrite (monthly_deaths_exact ny Hnn Hb) in Hin.
    apply in_map_iff in Hin as (m' & [= -> <-] & _).
    apply (Zsum_filter_bounds (fun x => or_zero (Ny_deaths_day x))
             (fun r => period_eqb (Ny.month r) m) ny Hnn).
  - rewrite Htot, <- Hraw. apply clipped_sum_ge.
  - intros Hall. rewrite Htot, <- Hraw. now apply clipped_sum_eq.
Qed.

Lemma monthly_totals_cover_cumulative_witness :
  110 - 100
  <= Zsum (map snd (monthly_deaths
                      (state_data "New York" (clean (query_rows example_ny))))).
Proof.
  refine (proj1 (proj2
           (monthly_totals_cover_cumulative example_ny "New York"
              (UsStates.mk "New York" (mkDate 2020 3 30) 1000 100)
              [ UsStates.mk "New York" (mkDate 2020 3 31) 1010 105;
                UsStates.mk "New York" (mkDate 2020 4 1) 1005 103;
                UsStates.mk "New York" (mkDate 2020 4 2) 1030 110 ]
              eq_refl _))).
  vm_compute. reflexivity.
Defined.

(** ** The New York slice *)

Lemma date_leb_iff a b :
  date_leb a b = true <->
  year a < year b
  \/ (year a = year b
      /\ (month a < month b \/ (month a = month b /\ day a <= day b))).
Proof.
  unfold date_leb.
  rewrite orb_true_iff, andb_true_iff, orb_true_iff, andb_true_iff.
  rewrite !Z.ltb_lt, !Z.eqb_eq, Z.leb_le. tauto.
Qed.

Lemma date_leb_trans a b c :
  date_leb a b = true -> date_leb b c = true -> date_leb a c = true.
Proof. rewrite !date_leb_iff. lia. Qed.

Lemma StronglySorted_filter {A} (R : A -> A -> Prop) (f : A -> bool) l :
  StronglySorted R l -> StronglySorted R (filter f l).
Proof.
  induction 1 as [|a l Hs IH Hall]; simpl; [constructor|].
  destruct (f a); [|exact IH].
  constructor; [exact IH|].
  apply Forall_forall. intros x Hx. apply filter_In in Hx as [Hx _].
  now apply (proj1 (Forall_forall _ _) Hall).
Qed.

Lemma sort_by_strongly_sorted {A} (leb : A -> A -> bool) l :
  (forall a b, leb a b = true \/ leb b a = true) ->
  (forall a b c, leb a b = true -> leb b c = true -> leb a c = true) ->
  StronglySorted (fun x y => leb x y = true) (sort_by leb l).
Proof.
  intros Htot Htr. apply Sorted_StronglySorted.
  - intros a b c. apply Htr.
  - now apply sort_by_sorted.
Qed.

Lemma StronglySorted_map {A B} (R : B -> B -> Prop) (f : A -> B) l :
  StronglySorted (fun x y => R (f x) (f y)) l -> StronglySorted R (map f l).
Proof.
  induction 1 as [|a l Hs IH Hall]; simpl; constructor; [exact IH|].
  apply Forall_forall. intros y Hy. apply in_map_iff in Hy as (x & <- & Hx).
  now apply (proj1 (Forall_forall _ _) Hall).
Qed.

(** X8. The slice the script analyses holds exactly the rows of the
    cleaned table whose state is "New York", each with the month of its
    own date, in date order; both outlier selections keep that order. *)
Theorem ny_data_is_the_state_slice data :
  Permutation (map Ny.base (ny_data data))
              (data_rows_of "New York" data)
  /\ (forall x, In x (ny_data data) ->
        Data.state_name (Ny.base x) = "New York"%string
        /\ Ny.month x = (year (Data.date (Ny.base x)),
                         month (Data.date (Ny.base x))))
  /\ StronglySorted
       (fun a b => date_leb (Data.date (Ny.base a)) (Data.date (Ny.base b))
                   = true)
       (ny_data data)
  /\ StronglySorted
       (fun a b => date_leb (Data.date (Ny.base a)) (Data.date (Ny.base b))
                   = true)
       (outliers (ny_data data))
  /\ StronglySorted
       (fun a b => date_leb (Data.date (Ny.base a)) (Data.date (Ny.base b))
                   = true)
       (outliers_deaths (ny_data data)).
Proof.
  assert (Hs : StronglySorted
                 (fun a b => date_leb (Data.date (Ny.base a))
                                      (Data.date (Ny.base b)) = true)
                 (ny_data data)).
  { unfold ny_data, state_data. apply StronglySorted_map. simpl.
    apply (sort_by_strongly_sorted
             (fun a b => date_leb (Data.date a) (Data.date b))).
    - intros a b. apply date_leb_total.
    - intros a b c. apply date_leb_trans. }
  split; [|split; [|split; [|split]]].
  - unfold ny_data, state_data. rewrite map_map. simpl. rewrite map_id.
    apply sort_by_perm.
  - intros x Hx. apply state_data_In in Hx as (r & _ & Hst & ->). simpl.
    now split.
  - exact Hs.
  - now apply StronglySorted_filter.
  - now apply StronglySorted_filter.
Qed.

(** ** Monthly maxima and state peaks *)

Lemma fold_left_max_ge l a :
  a <= fold_left Z.max l a /\ forall x, In x l -> x <= fold_left Z.max l a.
Proof.
  revert a. induction l as [|b l IH]; intros a; simpl.
  - split; [lia|tauto].
  - destruct (IH (Z.max a b)) as [H1 H2]. split; [lia|].
    intros x [<-|Hx]; [lia|auto].
Qed.

Lemma fold_left_max_In l a :
  fold_left Z.max l a = a \/ In (fold_left Z.max l a) l.
Proof.
  revert a. induction l as [|b l IH]; intros a; simpl; [now left|].
  destruct (IH (Z.max a b)) as [H|H]; [|now right; right].
  rewrite H. destruct (Z.max_spec a b) as [[_ ->]|[_ ->]]; auto.
Qed.

Lemma fold_left_max_init l a :
  (forall x, In x l -> x <= a) -> fold_left Z.max l a = a.
Proof.
  revert a. induction l as [|b l IH]; intros a H; simpl; [reflexivity|].
  assert (b <= a) by (apply H; now left).
  replace (Z.max a b) with a by lia. apply IH. intros x Hx. apply H. now right.
Qed.

Lemma same_month_iff a b : same_month a b = true <-> month_key a = month_key b.
Proof.
  unfold same_month, month_key.
  rewrite !andb_true_iff, String.eqb_eq, !Z.eqb_eq. split.
  - now intros [[-> ->] ->].
  - intros [= -> -> ->]. auto.
Qed.

(** The window maximum of a row bounds its month and is attained in it. *)
Lemma month_window_max_spec t r :
  In r t ->
  (forall x, In x t -> month_key x = month_key r ->
             UsStates.confirmed_cases x <= month_window_max t r)
  /\ exists x, In x t /\ month_key x = month_key r
               /\ UsStates.confirmed_cases x = month_window_max t r.
Proof.
  intros Hr. unfold month_window_max.
  fold (same_month) in *.
  set (part := filter (fun x => same_month x r) t).
  change (filter _ t) with part.
  destruct (fold_left_max_ge (map UsStates.confirmed_cases part)
              (UsStates.confirmed_cases r)) as [H1 H2].
  split.
  - intros x Hx Hk. apply H2, in_map. apply filter_In.
    split; [exact Hx|]. now apply same_month_iff.
  - destruct (fold_left_max_In (map UsStates.confirmed_cases part)
                (UsStates.confirmed_cases r)) as [H|H].
    + exists r. now rewrite H.
    + apply in_map_iff in H as (x & Hx & Hin).
      apply filter_In in Hin as [Hin Hk]. apply same_month_iff in Hk.
      exists x. auto.
Qed.

Lemma month_window_max_key t r r' :
  In r t -> In r' t -> month_key r = month_key r' ->
  month_window_max t r = month_window_max t r'.
Proof.
  intros Hr Hr' Hk.
  destruct (month_window_max_spec t r Hr) as (U & x & Hx & Kx & Ex).
  destruct (month_window_max_spec t r' Hr') as (U' & x' & Hx' & Kx' & Ex').
  assert (month_window_max t r <= month_window_max t r')
    by (rewrite <- Ex; apply U'; [exact Hx|congruence]).
  assert (month_window_max t r' <= month_window_max t r)
    by (rewrite <- Ex'; apply U; [exact Hx'|congruence]).
  lia.
Qed.

Lemma sql_query_In t x :
  In x (sql_query t) <->
  exists r, In r t
    /\ x = Peak.mk (UsStates.state_name r) (UsStates.date r)
                   (year (UsStates.date r)) (month (UsStates.date r))
                   (month_window_max t r).
Proof.
  unfold sql_query. rewrite in_map_iff.
  split; intros (r & H1 & H2); exists r; auto.
Qed.

Lemma data2_peaks_In t x :
  In x (data2_peaks t) <->
  exists k g0 g,
    filter (fun r => key_eqb (group_key r) k) (sql_query t) = g0 :: g
    /\ x = Peak.mk (fst (fst k))
                   (fold_left date_max (map Peak.date g) (Peak.date g0))
                   (snd (fst k)) (snd k)
                   (fold_left Z.max (map Peak.highest_monthly_confirmed_cases g)
                              (Peak.highest_monthly_confirmed_cases g0)).
Proof.
  unfold data2_peaks, sort_by_highest, groupby_month_max.
  rewrite sort_by_In, in_flat_map. split.
  - intros (k & _ & Hx). unfold group_max in Hx.
    destruct (filter _ (sql_query t)) as [|g0 g] eqn:E; [destruct Hx|].
    destruct Hx as [<-|[]]. exists k, g0, g. auto.
  - intros (k & g0 & g & E & ->). exists k. split.
    + apply sort_by_In. apply unique_In; [apply key_eqb_spec|].
      assert (In g0 (filter (fun r => key_eqb (group_key r) k) (sql_query t)))
        as H by (rewrite E; now left).
      apply filter_In in H as [H Hk]. apply key_eqb_spec in Hk. subst k.
      now apply in_map.
    + rewrite E. simpl. now left.
Qed.

Lemma peak_row_spec t x :
  In x (data2_peaks t) ->
  (exists r, In r t /\ month_key r = group_key x
     /\ UsStates.confirmed_cases r = Peak.highest_monthly_confirmed_cases x)
  /\ (forall r, In r t -> month_key r = group_key x ->
        UsStates.confirmed_cases r <= Peak.highest_monthly_confirmed_cases x).
Proof.
  intros Hx. apply data2_peaks_In in Hx as (k & g0 & g & E & ->).
  unfold group_key. simpl. rewrite <- !surjective_pairing.
  assert (Hg : forall y, In y (g0 :: g) ->
             exists r, In r t /\ month_key r = k
               /\ Peak.highest_monthly_confirmed_cases y = month_window_max t r).
  { intros y Hy. rewrite <- E in Hy. apply filter_In in Hy as [Hy Hk].
    apply key_eqb_spec in Hk. apply sql_query_In in Hy as (r & Hr & ->).
    exists r. auto. }
  destruct (Hg g0 (or_introl eq_refl)) as (r0 & Hr0 & K0 & E0).
  assert (Hall : forall v, In v (map Peak.highest_monthly_confirmed_cases g) ->
                           v <= Peak.highest_monthly_confirmed_cases g0).
  { intros v Hv. apply in_map_iff in Hv as (y & <- & Hy).
    destruct (Hg y (or_intror Hy)) as (r & Hr & K & Ey).
    rewrite Ey, E0, (month_window_max_key t r r0); [lia|auto|auto|congruence]. }
  rewrite (fold_left_max_init _ _ Hall), E0.
  destruct (month_window_max_spec t r0 Hr0) as (U & z & Hz & Kz & Ez).
  split.
  - exists z. split; [exact Hz|]. split; [congruence|exact Ez].
  - intros r Hr Hk. apply U; [exact Hr|congruence].
Qed.

(** X9. Every row of the peak table stands for a month of a state that
    occurs in the table, and its value is the largest cumulative case
    count recorded for that state in that month: some record of the
    month has it and no record of the month exceeds it. *)
Theorem peak_row_is_month_maximum t x :
  In x (data2_peaks t) ->
  (exists r, In r t /\ month_key r = group_key x
     /\ UsStates.confirmed_cases r = Peak.highest_monthly_confirmed_cases x)
  /\ (forall r, In r t -> month_key r = group_key x ->
        UsStates.confirmed_cases r <= Peak.highest_monthly_confirmed_cases x).
Proof. apply peak_row_spec. Qed.

Lemma peak_row_is_month_maximum_witness :
  exists r, In r example_ny /\ month_key r = group_key example_march_peak
    /\ UsStates.confirmed_cases r = 1010.
Proof.
  refine (proj1 (peak_row_is_month_maximum example_ny example_march_peak _)).
  vm_compute. tauto.
Defined.

Lemma sql_query_keys t : map group_key (sql_query t) = map month_key t.
Proof. unfold sql_query. rewrite map_map. reflexivity. Qed.

Lemma groupby_month_max_keys d :
  map group_key (groupby_month_max d)
  = sort_by key_leb (unique key_eqb (map group_key d)).
Proof.
  unfold groupby_month_max.
  assert (Hk : forall k, In k (sort_by key_leb (unique key_eqb (map group_key d)))
                         -> In k (map group_key d)).
  { intros k Hk. apply sort_by_In in Hk.
    exact (proj1 (unique_In key_eqb key_eqb_spec k _) Hk). }
  induction (sort_by key_leb (unique key_eqb (map group_key d))) as [|k ks IH].
  - reflexivity.
  - cbn [flat_map]. rewrite map_app, IH by (intros k' Hk'; apply Hk; now right).
    assert (In k (map group_key d)) as Hin by (apply Hk; now left).
    apply in_map_iff in Hin as (r & Hr & Hin).
    assert (In r (filter (fun r => key_eqb (group_key r) k) d)) as Hf
      by (apply filter_In; split; [exact Hin|now apply key_eqb_spec]).
    destruct (filter (fun r => key_eqb (group_key r) k) d) as [|g0 g];
      [destruct Hf|].
    simpl. unfold group_key at 1. simpl. now rewrite <- !surjective_pairing.
Qed.

Lemma highest_desc_total (a b : Peak.row) :
  (Peak.highest_monthly_confirmed_cases b
   <=? Peak.highest_monthly_confirmed_cases a) = true
  \/ (Peak.highest_monthly_confirmed_cases a
      <=? Peak.highest_monthly_confirmed_cases b) = true.
Proof. rewrite !Z.leb_le. lia. Qed.

Lemma data2_peaks_desc t :
  StronglySorted (fun a b => Peak.highest_monthly_confirmed_cases b
                             <= Peak.highest_monthly_confirmed_cases a)
                 (data2_peaks t).
Proof.
  unfold data2_peaks, sort_by_highest.
  eapply StronglySorted_ind with
    (R := fun a b => (Peak.highest_monthly_confirmed_cases b
                      <=? Peak.highest_monthly_confirmed_cases a) = true).
  - constructor.
  - intros a l _ IH Hall. constructor; [exact IH|].
    eapply Forall_impl; [|exact Hall]. intros b Hb. now apply Z.leb_le.
  - apply (sort_by_strongly_sorted
             (fun a b => Peak.highest_monthly_confirmed_cases b
                         <=? Peak.highest_monthly_confirmed_cases a)).
    + intros a b. apply highest_desc_total.
    + intros a b c. rewrite !Z.leb_le. lia.
Qed.

(** X10. The peak table has exactly one row for every (state, year,
    month) that occurs in the table, and its rows are in descending
    order of the monthly maximum. *)
Theorem peak_table_one_row_per_month t :
  Permutation (map group_key (data2_peaks t))
              (unique key_eqb (map month_key t))
  /\ NoDup (map group_key (data2_peaks t))
  /\ StronglySorted (fun a b => Peak.highest_monthly_confirmed_cases b
                                <= Peak.highest_monthly_confirmed_cases a)
                    (data2_peaks t).
Proof.
  assert (H : Permutation (map group_key (data2_peaks t))
                          (unique key_eqb (map month_key t))).
  { unfold data2_peaks, sort_by_highest.
    rewrite (Permutation_map group_key (sort_by_perm _ _)).
    rewrite groupby_month_max_keys, sql_query_keys. apply sort_by_perm. }
  split; [exact H|]. split; [|apply data2_peaks_desc].
  eapply Permutation_NoDup; [symmetry; exact H|].
  apply unique_NoDup, key_eqb_spec.
Qed.

(** ** The dict of state peaks *)

Lemma states_and_highest_month_entries d :
  states_and_highest_month d
  = flat_map (dict_entry d) (unique String.eqb (map Peak.state_name d)).
Proof. reflexivity. Qed.

Lemma dict_entry_In d s e :
  In e (dict_entry d s) <->
  exists g0 g,
    filter (fun r => String.eqb (Peak.state_name r) s) d = g0 :: g
    /\ e = (s, fold_left Z.max (map Peak.highest_monthly_confirmed_cases g)
                         (Peak.highest_monthly_confirmed_cases g0)).
Proof.
  unfold dict_entry.
  destruct (filter (fun r => String.eqb (Peak.state_name r) s) d) as [|g0 g];
    simpl.
  - split; [tauto|]. intros (? & ? & [=] & _).
  - split.
    + intros [<-|[]]. now exists g0, g.
    + intros (g0' & g' & [= <- <-] & ->). now left.
Qed.

Lemma dict_keys d :
  map fst (states_and_highest_month d)
  = unique String.eqb (map Peak.state_name d).
Proof.
  rewrite states_and_highest_month_entries.
  assert (Hk : forall s, In s (unique String.eqb (map Peak.state_name d)) ->
                         In s (map Peak.state_name d)).
  { intros s. apply (unique_In String.eqb String.eqb_eq). }
  induction (unique String.eqb (map Peak.state_name d)) as [|s ks IH].
  - reflexivity.
  - cbn [flat_map]. rewrite map_app, IH by (intros k Hk'; apply Hk; now right).
    assert (In s (map Peak.state_name d)) as Hin by (apply Hk; now left).
    apply in_map_iff in Hin as (r & Hr & Hin).
    assert (In r (filter (fun r => String.eqb (Peak.state_name r) s) d)) as Hf
      by (apply filter_In; split; [exact Hin|now apply String.eqb_eq]).
    unfold dict_entry.
    destruct (filter (fun r => String.eqb (Peak.state_name r) s) d) as [|g0 g];
      [destruct Hf|].
    reflexivity.
Qed.

(** An entry's value is the largest value among the rows of its state. *)
Lemma dict_value d s m :
  In (s, m) (states_and_highest_month d) ->
  (exists x, In x d /\ Peak.state_name x = s
             /\ Peak.highest_monthly_confirmed_cases x = m)
  /\ (forall x, In x d -> Peak.state_name x = s ->
                Peak.highest_monthly_confirmed_cases x <= m).
Proof.
  rewrite states_and_highest_month_entries, in_flat_map.
  intros (k & _ & He). apply dict_entry_In in He as (g0 & g & E & [= -> ->]).
  assert (Hg : forall y, In y (g0 :: g) -> In y d /\ Peak.state_name y = k).
  { intros y Hy. rewrite <- E in Hy. apply filter_In in Hy as [Hy Hs].
    split; [exact Hy|now apply String.eqb_eq]. }
  destruct (fold_left_max_ge (map Peak.highest_monthly_confirmed_cases g)
              (Peak.highest_monthly_confirmed_cases g0)) as [H1 H2].
  split.
  - destruct (fold_left_max_In (map Peak.highest_monthly_confirmed_cases g)
                (Peak.highest_monthly_confirmed_cases g0)) as [H|H].
    + exists g0. destruct (Hg g0 (or_introl eq_refl)). auto.
    + apply in_map_iff in H as (y & Hy & Hin).
      exists y. destruct (Hg y (or_intror Hin)). auto.
  - intros x Hx Hs.
    assert (In x (g0 :: g)) as Hxg.
    { rewrite <- E. apply filter_In. split; [exact Hx|]. now apply String.eqb_eq. }
    destruct Hxg as [<-|Hxg]; [exact H1|]. apply H2. now apply in_map.
Qed.

Lemma data2_peaks_states t s :
  In s (map Peak.state_name (data2_peaks t))
  <-> In s (map UsStates.state_name t).
Proof.
  rewrite !in_map_iff. split.
  - intros (x & <- & Hx).
    destruct (proj1 (peak_row_spec t x Hx)) as (r & Hr & Hk & _).
    exists r. split; [|exact Hr]. unfold month_key, group_key in Hk. congruence.
  - intros (r & <- & Hr).
    destruct (data2_peaks_every_month t r Hr) as (x & Hx & Hs & _).
    exists x. auto.
Qed.

(** X11. The dict of lines 260-264 has exactly one entry for every state
    of the table, and the entry's value is the state's all-time peak:
    the largest cumulative case count among all of the state's records,
    attained by one of them. *)
Theorem states_and_highest_month_is_all_time_peak t :
  let dict := states_and_highest_month (data2_peaks t) in
  NoDup (map fst dict)
  /\ (forall s, In s (map fst dict) <-> In s (map UsStates.state_name t))
  /\ (forall s m, In (s, m) dict ->
        (exists r, In r t /\ UsStates.state_name r = s
                   /\ UsStates.confirmed_cases r = m)
        /\ (forall r, In r t -> UsStates.state_name r = s ->
                      UsStates.confirmed_cases r <= m)).
Proof.
  intros dict. subst dict. rewrite dict_keys.
  split; [apply unique_NoDup, String.eqb_eq|]. split.
  - intros s. rewrite (unique_In String.eqb String.eqb_eq).
    apply data2_peaks_states.
  - intros s m Hin. destruct (dict_value _ _ _ Hin) as ((x & Hx & Hs & Hm) & U).
    split.
    + destruct (proj1 (peak_row_spec t x Hx)) as (r & Hr & Hk & Hc).
      exists r. split; [exact Hr|]. split; [|congruence].
      unfold month_key, group_key in Hk. congruence.
    + intros r Hr Hsr.
      destruct (data2_peaks_every_month t r Hr) as (y & Hy & Sy & Yy & My).
      assert (UsStates.confirmed_cases r
              <= Peak.highest_monthly_confirmed_cases y).
      { apply (proj2 (peak_row_spec t y Hy) r Hr).
        unfold month_key, group_key. congruence. }
      assert (Peak.highest_monthly_confirmed_cases y <= m)
        by (apply U; [exact Hy|congruence]).
      lia.
Qed.

Lemma states_and_highest_month_is_all_time_peak_witness :
  exists r, In r example_ny
    /\ UsStates.state_name r = "New York"%string
    /\ UsStates.confirmed_cases r = 1030.
Proof.
  refine (proj1 (proj2 (proj2
            (states_and_highest_month_is_all_time_peak example_ny))
            "New York"%string 1030 _)).
  vm_compute. tauto.
Defined.

Lemma dict_entry_cons_same x d :
  (forall y, In y d -> Peak.highest_monthly_confirmed_cases y
                       <= Peak.highest_monthly_confirmed_cases x) ->
  dict_entry (x :: d) (Peak.state_name x)
  = [(Peak.state_name x, Peak.highest_monthly_confirmed_cases x)].
Proof.
  intros H. unfold dict_entry. cbn [filter]. rewrite String.eqb_refl.
  cbn [map Zmax_list]. rewrite fold_left_max_init; [reflexivity|].
  intros v Hv. apply in_map_iff in Hv as (y & <- & Hy).
  apply filter_In in Hy as [Hy _]. now apply H.
Qed.

Lemma dict_entry_cons_other x d s :
  String.eqb (Peak.state_name x) s = false ->
  dict_entry (x :: d) s = dict_entry d s.
Proof. intros H. unfold dict_entry. cbn [filter]. now rewrite H. Qed.

Lemma dict_entries_filter d a ks :
  flat_map (dict_entry d) (filter (fun b => negb (String.eqb a b)) ks)
  = filter (fun e => negb (String.eqb a (fst e))) (flat_map (dict_entry d) ks).
Proof.
  induction ks as [|k ks IH]; [reflexivity|].
  cbn [filter flat_map]. rewrite filter_app, <- IH.
  unfold dict_entry at 2 3.
  destruct (String.eqb a k) eqn:E; cbn [negb flat_map];
    destruct (Zmax_list _) as [m|] eqn:Em; cbn [filter fst app];
    rewrite ?E; cbn [negb app]; try reflexivity.
  all: unfold dict_entry; now rewrite Em.
Qed.

Lemma flat_map_ext_on {A B} (f g : A -> list B) l :
  (forall a, In a l -> f a = g a) -> flat_map f l = flat_map g l.
Proof.
  induction l as [|a l IH]; intros H; simpl; [reflexivity|].
  rewrite (H a (or_introl eq_refl)), IH; [reflexivity|].
  intros b Hb. apply H. now right.
Qed.

Lemma dict_cons x d :
  (forall y, In y d -> Peak.highest_monthly_confirmed_cases y
                       <= Peak.highest_monthly_confirmed_cases x) ->
  states_and_highest_month (x :: d)
  = (Peak.state_name x, Peak.highest_monthly_confirmed_cases x)
    :: filter (fun e => negb (String.eqb (Peak.state_name x) (fst e)))
              (states_and_highest_month d).
Proof.
  intros H. rewrite !states_and_highest_month_entries.
  cbn [map unique flat_map]. rewrite (dict_entry_cons_same _ _ H).
  cbn [app]. f_equal. rewrite <- dict_entries_filter.
  apply flat_map_ext_on. intros s Hs. apply filter_In in Hs as [_ Hs].
  apply dict_entry_cons_other. now destruct (String.eqb (Peak.state_name x) s).
Qed.

Lemma dict_desc d :
  StronglySorted (fun a b => Peak.highest_monthly_confirmed_cases b
                             <= Peak.highest_monthly_confirmed_cases a) d ->
  StronglySorted (fun a b => snd b <= snd a) (states_and_highest_month d).
Proof.
  induction 1 as [|x d Hs IH Hall].
  - constructor.
  - rewrite Forall_forall in Hall. rewrite (dict_cons _ _ Hall).
    constructor; [now apply StronglySorted_filter|].
    apply Forall_forall. intros [s m] He. apply filter_In in He as [He _].
    destruct (proj1 (dict_value _ _ _ He)) as (y & Hy & _ & <-). simpl.
    now apply Hall.
Qed.

(** X12. The dict of state peaks is built in descending order of the
    peak: an entry's value is at least the value of every entry after
    it, so the first entry holds the largest peak of all states. *)
Theorem states_and_highest_month_descending t :
  StronglySorted (fun a b => snd b <= snd a)
                 (states_and_highest_month (data2_peaks t)).
Proof. apply dict_desc, data2_peaks_desc. Qed.

(** ** Colour normalisation *)

Lemma fold_left_min_le l a :
  fold_left Z.min l a <= a /\ forall x, In x l -> fold_left Z.min l a <= x.
Proof.
  revert a. induction l as [|b l IH]; intros a; simpl.
  - split; [lia|tauto].
  - destruct (IH (Z.min a b)) as [H1 H2]. split; [lia|].
    intros x [<-|Hx]; [lia|auto].
Qed.

Lemma true_div_unit c d :
  0 <= c <= d -> 0 < d ->
  exists q, true_div c (Some d) = Finite q
    /\ (0 <= q)%Q /\ (q <= 1)%Q
    /\ (c = d -> (q == 1)%Q) /\ (c = 0 -> (q == 0)%Q).
Proof.
  intros Hc Hd. destruct d as [|p|p]; try lia.
  exists (inject_Z c / inject_Z (Z.pos p))%Q. split; [reflexivity|].
  assert (E : (inject_Z c / inject_Z (Z.pos p) == c # p)%Q).
  { unfold Qdiv, Qinv, inject_Z, Qmult, Qeq. simpl. lia. }
  rewrite E. unfold Qle, Qeq. simpl. repeat split; intros; subst; lia.
Qed.

(** X13. The colour normalisation fails with ValueError on an empty
    array. On a non-empty one whose largest and smallest entries differ
    by less than 2^63 (so that no int64 subtraction wraps) it returns
    one value per entry: all NaN when every entry is the same, and
    otherwise quotients between 0 and 1, with 1 at each largest entry
    and 0 at each smallest (quotients as exact rationals). *)
Theorem normalized_values_range :
  normalized_values [] = Raise ValueError
  /\ forall v vs,
       let mn := fold_left Z.min vs v in
       let mx := fold_left Z.max vs v in
       mx - mn < 2 ^ 63 ->
       exists nv,
         normalized_values (v :: vs) = Ok nv
         /\ length nv = S (length vs)
         /\ (mn = mx -> Forall (fun f => f = NaN) nv)
         /\ (mn <> mx ->
             forall i x, nth_error (v :: vs) i = Some x ->
               exists q, nth_error nv i = Some (Finite q)
                 /\ (0 <= q)%Q /\ (q <= 1)%Q
                 /\ (x = mx -> (q == 1)%Q) /\ (x = mn -> (q == 0)%Q)).
Proof.
  split; [reflexivity|]. intros v vs mn mx Hspread.
  exists (map (fun x => true_div (wrap64 (x - mn)) (Some (wrap64 (mx - mn))))
              (v :: vs)).
  split; [reflexivity|]. split; [now rewrite length_map|].
  destruct (fold_left_min_le vs v) as [Hmn1 Hmn2].
  destruct (fold_left_max_ge vs v) as [Hmx1 Hmx2].
  fold mn in Hmn1, Hmn2. fold mx in Hmx1, Hmx2.
  assert (Hb : forall x, In x (v :: vs) -> mn <= x <= mx).
  { intros x [<-|Hx]; [lia|]. split; [now apply Hmn2|now apply Hmx2]. }
  assert (Hw : forall x, In x (v :: vs) -> wrap64 (x - mn) = x - mn).
  { intros x Hx. specialize (Hb x Hx). apply wrap64_id. lia. }
  assert (Hwm : wrap64 (mx - mn) = mx - mn).
  { apply wrap64_id. specialize (Hb v (or_introl eq_refl)). lia. }
  rewrite Hwm. split.
  - intros E. apply Forall_forall. intros f Hf.
    apply in_map_iff in Hf as (x & <- & Hx). rewrite (Hw x Hx).
    specialize (Hb x Hx).
    replace (x - mn) with 0 by lia. replace (mx - mn) with 0 by lia.
    reflexivity.
  - intros Hne i x Hi.
    assert (In x (v :: vs)) as Hx by (eapply nth_error_In; exact Hi).
    specialize (Hb x Hx).
    destruct (true_div_unit (x - mn) (mx - mn)) as (q & Eq & H0 & H1 & Hmax & Hmin);
      [lia|lia|].
    exists q. split.
    + rewrite nth_error_map, Hi. cbn [option_map]. now rewrite (Hw x Hx), Eq.
    + repeat split; auto; intros; [apply Hmax|apply Hmin]; lia.
Qed.

Lemma normalized_values_range_witness :
  exists nv, normalized_values [1030; 1010] = Ok nv /\ length nv = 2%nat.
Proof.
  destruct (proj2 normalized_values_range 1030 [1010]) as (nv & H1 & H2 & _).
  - vm_compute. reflexivity.
  - exists nv. split; [exact H1|exact H2].
Defined.

(** Beyond that spread the subtraction wraps: the middle entry of this
    array is normalised to a negative number. *)
Lemma normalized_values_wraps :
  normalized_values [9223372036854775807; 1; -2]
  = Ok [ Finite (9223372036854775807 # 9223372036854775807);
         Finite (-3 # 9223372036854775807);
         Finite (0 # 9223372036854775807) ].
Proof. vm_compute. reflexivity. Qed.

(** ** Order and size of the per-capita table *)







Lemma merge_left_length_formula l r :
  length (merge_left l r)
  = list_sum (map (fun x => Nat.max 1 (length (pop_matches r x))) l).
Proof.
  unfold merge_left, pop_matches. rewrite length_flat_map.
  f_equal. apply map_ext. intros x.
  destruct (filter _ r) as [|p0 ms]; [reflexivity|].
  rewrite length_map. reflexivity.
Qed.

Lemma NoDup_matches_le_1 pop s :
  NoDup (map Pop.state_name pop) ->
  (length (filter (fun p => String.eqb (Pop.state_name p) s) pop) <= 1)%nat.
Proof.
  induction pop as [|p pop IH]; simpl; intros H; [lia|].
  inversion H as [|? ? Hnin Hnd]; subst.
  destruct (String.eqb_spec (Pop.state_name p) s) as [E|_]; [|auto].
  rewrite filter_none; [simpl; lia|].
  intros q Hq. apply String.eqb_neq. intros Eq. apply Hnin.
  rewrite E, <- Eq. now apply in_map.
Qed.

(** X15. The final table has, for every row of the peak table, one row
    per population record of the same state name, and a single row when
    there is none. With at most one population record per state name
    it has exactly as many rows as the peak table. *)
Theorem merge_row_count t pop :
  length (data2 t pop)
  = list_sum (map (fun x => Nat.max 1 (length (pop_matches pop x)))
                  (data2_peaks t))
  /\ (NoDup (map Pop.state_name pop) ->
      length (data2 t pop) = length (data2_peaks t)).
Proof.
  assert (E : length (data2 t pop) = length (merge_left (data2_peaks t) pop)).
  { unfold data2, sort_by_per_capita, add_per_capita.
    now rewrite sort_by_length, length_map. }
  rewrite E, merge_left_length_formula. clear E. split; [reflexivity|].
  intros Hnd. unfold list_sum.
  induction (data2_peaks t) as [|x l IH]; [reflexivity|].
  cbn [map fold_right length]. rewrite IH.
  pose proof (NoDup_matches_le_1 pop (Peak.state_name x) Hnd) as H.
  unfold pop_matches. lia.
Qed.

Lemma merge_row_count_witness :
  length (data2 example_ny example_pop) = length (data2_peaks example_ny).
Proof.
  apply (proj2 (merge_row_count example_ny example_pop)).
  simpl. constructor; [simpl; tauto|constructor].
Defined.

(** ** Each state is analysed on its own *)

Lemma unique_const {A} (eqb : A -> A -> bool) (s : A) l :
  eqb s s = true -> (forall x, In x l -> x = s) -> l <> [] ->
  unique eqb l = [s].
Proof.
  intros Hrefl. induction l as [|a l IH]; intros Hall Hne; [congruence|].
  simpl. rewrite (Hall a (or_introl eq_refl)). f_equal.
  destruct l as [|b l]; [reflexivity|].
  rewrite IH; [|intros x Hx; apply Hall; now right|discriminate].
  simpl. now rewrite Hrefl.
Qed.

Lemma us_states_day_single t s :
  us_states_day (daily_records t s) = lag_rows None (window t s).
Proof.
  assert (Hw : window (daily_records t s) s = window t s).
  { unfold window, daily_records. f_equal. apply filter_all.
    intros x Hx. now apply filter_In in Hx. }
  assert (Hu : daily_records t s = []
               \/ unique String.eqb (map UsStates.state_name (daily_records t s))
                  = [s]).
  { destruct (daily_records t s) as [|r ts] eqn:E; [now left|right].
    apply unique_const.
    - apply String.eqb_refl.
    - intros x Hx. apply in_map_iff in Hx as (y & <- & Hy).
      rewrite <- E in Hy. apply filter_In in Hy as [_ Hy].
      now apply String.eqb_eq.
    - discriminate. }
  unfold us_states_day. destruct Hu as [E|E].
  - rewrite E. unfold window. fold (daily_records t s). now rewrite E.
  - rewrite E. cbn [flat_map]. now rewrite app_nil_r, Hw.
Qed.

(** X16. The rows the query returns for a state are the rows it returns
    when the table holds that state's records alone: deltas and z-scores
    of a state do not depend on any other state's records. *)
Theorem query_is_per_state t s :
  Permutation (data_rows_of s (query_rows t))
              (query_rows (daily_records t s)).
Proof.
  rewrite data_rows_of_query, (query_rows_perm (daily_records t s)).
  rewrite us_states_day_single, day_rows_of_us_states_day.
  set (d' := lag_rows None (window t s)).
  erewrite map_ext_in; [apply Permutation_refl|].
  intros r Hr. unfold select_row_value.
  assert (Day.state_name r = s) as ->.
  { apply lag_rows_state in Hr as (u & Hu & ->). now apply window_state in Hu. }
  rewrite day_rows_of_us_states_day. fold d'.
  assert (day_rows_of s d' = d') as ->; [|reflexivity].
  apply filter_all. intros x Hx.
  apply lag_rows_state in Hx as (u & Hu & ->).
  apply String.eqb_eq. now apply window_state in Hu.
Qed.

(** ** The printed extremes *)

Lemma zscore_desc_total a b : zscore_desc a b = true \/ zscore_desc b a = true.
Proof.
  destruct a as [x|], b as [y|]; simpl; auto.
  destruct (Rle_dec y x), (Rle_dec x y); auto. lra.
Qed.

Lemma zscore_desc_trans a b c :
  zscore_desc a b = true -> zscore_desc b c = true -> zscore_desc a c = true.
Proof.
  destruct a as [x|], b as [y|], c as [z|]; simpl; auto; try discriminate.
  destruct (Rle_dec y x), (Rle_dec z y), (Rle_dec z x); auto; try discriminate.
  lra.
Qed.

Lemma zscore_asc_total a b : zscore_asc a b = true \/ zscore_asc b a = true.
Proof.
  destruct a as [x|], b as [y|]; simpl; auto.
  destruct (Rle_dec y x), (Rle_dec x y); auto. lra.
Qed.

Lemma zscore_asc_trans a b c :
  zscore_asc a b = true -> zscore_asc b c = true -> zscore_asc a c = true.
Proof.
  destruct a as [x|], b as [y|], c as [z|]; simpl; auto; try discriminate.
  destruct (Rle_dec x y), (Rle_dec y z), (Rle_dec x z); auto; try discriminate.
  lra.
Qed.

Lemma firstn_incl {A} n (l : list A) a : In a (firstn n l) -> In a l.
Proof.
  revert n. induction l as [|x l IH]; intros [|n]; simpl; try tauto.
  intros [->|H]; [now left|right; eauto].
Qed.

Lemma skipn_incl {A} n (l : list A) a : In a (skipn n l) -> In a l.
Proof.
  revert n. induction l as [|x l IH]; intros [|n]; simpl; try tauto.
  intros H. right. eauto.
Qed.

Lemma StronglySorted_firstn_skipn {A} (R : A -> A -> Prop) l n a b :
  StronglySorted R l -> In a (firstn n l) -> In b (skipn n l) -> R a b.
Proof.
  intros Hs. revert n. induction Hs as [|x l Hs IH Hall]; intros n Ha Hb.
  - destruct n; destruct Ha.
  - destruct n as [|n]; [destruct Ha|]. simpl in Ha, Hb.
    destruct Ha as [<-|Ha].
    + apply (proj1 (Forall_forall _ _) Hall). eapply skipn_incl. exact Hb.
    + now apply (IH n).
Qed.

Section Head.
Context (key : Ny.row -> option R) (leb : option R -> option R -> bool).
Hypothesis leb_total : forall a b, leb a b = true \/ leb b a = true.
Hypothesis leb_trans :
  forall a b c, leb a b = true -> leb b c = true -> leb a c = true.

(** The head of a sorted table: at most five rows of the table, each
    no later in the order than any row left out. *)
Lemma head_sorted_spec ny :
  let printed := head (sort_by (fun a b => leb (key a) (key b)) ny) in
  length printed = Nat.min 5 (length ny)
  /\ (forall a, In a printed -> In a ny)
  /\ (forall a b, In a printed -> In b ny -> ~ In b printed ->
                  leb (key a) (key b) = true).
Proof.
  intros printed. subst printed. unfold head.
  set (sorted := sort_by (fun a b => leb (key a) (key b)) ny).
  split; [|split].
  - rewrite length_firstn. unfold sorted. now rewrite sort_by_length.
  - intros a Ha. apply (sort_by_In (fun a b => leb (key a) (key b))).
    eapply firstn_incl. exact Ha.
  - intros a b Ha Hb Hnb.
    assert (In b (firstn 5 sorted ++ skipn 5 sorted)) as Hb'.
    { rewrite firstn_skipn. now apply sort_by_In. }
    apply in_app_or in Hb' as [Hb'|Hb']; [contradiction|].
    apply (StronglySorted_firstn_skipn
             (fun a b => leb (key a) (key b) = true) sorted 5); auto.
    apply (sort_by_strongly_sorted (fun a b => leb (key a) (key b))).
    + intros x y. apply leb_total.
    + intros x y z. apply leb_trans.
Qed.
End Head.

(** X17. Each of the four printed previews shows at most five rows of
    the slice, five when it has that many. A row left out of a
    "highest" preview has a missing z-score or one no larger than that
    of every printed row; a row left out of a "lowest" preview has a
    missing z-score or one no smaller. *)
Theorem printed_rows_are_the_extremes ny :
  (length (highest_cases_zscores ny) = Nat.min 5 (length ny)
   /\ (forall a, In a (highest_cases_zscores ny) -> In a ny)
   /\ forall a b y, In a (highest_cases_zscores ny) -> In b ny ->
        ~ In b (highest_cases_zscores ny) -> Ny_cases_zscore b = Some y ->
        exists x, Ny_cases_zscore a = Some x /\ (y <= x)%R)
  /\ (length (lowest_cases_zscores ny) = Nat.min 5 (length ny)
   /\ (forall a, In a (lowest_cases_zscores ny) -> In a ny)
   /\ forall a b y, In a (lowest_cases_zscores ny) -> In b ny ->
        ~ In b (lowest_cases_zscores ny) -> Ny_cases_zscore b = Some y ->
        exists x, Ny_cases_zscore a = Some x /\ (x <= y)%R)
  /\ (length (highest_deaths_zscores ny) = Nat.min 5 (length ny)
   /\ (forall a, In a (highest_deaths_zscores ny) -> In a ny)
   /\ forall a b y, In a (highest_deaths_zscores ny) -> In b ny ->
        ~ In b (highest_deaths_zscores ny) -> Ny_deaths_zscore b = Some y ->
        exists x, Ny_deaths_zscore a = Some x /\ (y <= x)%R)
  /\ (length (lowest_deaths_zscores ny) = Nat.min 5 (length ny)
   /\ (forall a, In a (lowest_deaths_zscores ny) -> In a ny)
   /\ forall a b y, In a (lowest_deaths_zscores ny) -> In b ny ->
        ~ In b (lowest_deaths_zscores ny) -> Ny_deaths_zscore b = Some y ->
        exists x, Ny_deaths_zscore a = Some x /\ (x <= y)%R).
Proof.
  assert (Hd : forall za y, zscore_desc za (Some y) = true ->
                            exists x, za = Some x /\ (y <= x)%R).
  { intros [x|] y; simpl; [|discriminate].
    destruct (Rle_dec y x); [eauto|discriminate]. }
  assert (Ha : forall za y, zscore_asc za (Some y) = true ->
                            exists x, za = Some x /\ (x <= y)%R).
  { intros [x|] y; simpl; [|discriminate].
    destruct (Rle_dec x y); [eauto|discriminate]. }
  pose proof (head_sorted_spec Ny_cases_zscore zscore_desc
                zscore_desc_total zscore_desc_trans ny) as (L1 & I1 & O1).
  pose proof (head_sorted_spec Ny_cases_zscore zscore_asc
                zscore_asc_total zscore_asc_trans ny) as (L2 & I2 & O2).
  pose proof (head_sorted_spec Ny_deaths_zscore zscore_desc
                zscore_desc_total zscore_desc_trans ny) as (L3 & I3 & O3).
  pose proof (head_sorted_spec Ny_deaths_zscore zscore_asc
                zscore_asc_total zscore_asc_trans ny) as (L4 & I4 & O4).
  split; [|split; [|split]]; (split; [assumption|split; [assumption|]]);
    intros a b y H1 H2 H3 H4.
  - apply Hd. rewrite <- H4. now apply O1.
  - apply Ha. rewrite <- H4. now apply O2.
  - apply Hd. rewrite <- H4. now apply O3.
  - apply Ha. rewrite <- H4. now apply O4.
Qed.

Lemma printed_rows_are_the_extremes_witness :
  length (highest_cases_zscores [example_first_row; example_spike_row])
  = Nat.min 5 2.
Proof.
  exact (proj1 (proj1 (printed_rows_are_the_extremes
                         [example_first_row; example_spike_row]))).
Defined.

(** ** What an outlier is, and what cleaning does not change *)

Lemma sample_zscore_defined v ds z :
  sample_zscore v ds = Some z ->
  (2 <= length ds)%nat /\ (0 < sample_stddev ds)%R
  /\ z = ((IZR v - mean ds) / sample_stddev ds)%R.
Proof.
  unfold sample_zscore.
  destruct (Nat.ltb_spec (length ds) 2) as [|Hn]; [discriminate|].
  destruct (Req_dec_T (sample_stddev ds) 0%R) as [|Hsd]; [discriminate|].
  intros [= <-]. split; [exact Hn|]. split; [|reflexivity].
  assert (0 <= sample_stddev ds)%R by apply sqrt_pos. lra.
Qed.

Lemma zscore_above z d sd :
  (0 < sd)%R -> z = (d / sd)%R ->
  ((z > 3 -> d > 3 * sd) /\ (z < -3 -> d < -3 * sd))%R.
Proof.
  intros Hsd ->. 
  assert (E : (d = d / sd * sd)%R) by (field; lra).
  split; intros H; rewrite E at 1; nra.
Qed.

(** X18. A row flagged as a case outlier stands for a day whose raw
    case delta lies more than three sample standard deviations of the
    state's raw deltas above or below their mean; likewise for a death
    outlier and the raw death deltas. *)
Theorem outlier_is_three_sigma t s :
  (forall x, In x (outliers (state_data s (clean (query_rows t)))) ->
     exists r v, In r (query_rows t)
       /\ Data.state_name r = s
       /\ Data.confirmed_cases_day r = Some v
       /\ Ny_cases_zscore x = Data.confirmed_cases_day_zscore r
       /\ let ds := state_cases_deltas t s in
          (0 < sample_stddev ds)%R
          /\ (IZR v - mean ds > 3 * sample_stddev ds
              \/ IZR v - mean ds < -3 * sample_stddev ds)%R)
  /\ (forall x, In x (outliers_deaths (state_data s (clean (query_rows t)))) ->
     exists r v, In r (query_rows t)
       /\ Data.state_name r = s
       /\ Data.deaths_day r = Some v
       /\ Ny_deaths_zscore x = Data.deaths_day_zscore r
       /\ let ds := state_deaths_deltas t s in
          (0 < sample_stddev ds)%R
          /\ (IZR v - mean ds > 3 * sample_stddev ds
              \/ IZR v - mean ds < -3 * sample_stddev ds)%R).
Proof.
  split; intros x Hx; apply filter_In in Hx as [Hx Hm];
    apply outlier_mask_spec in Hm as (z & Hz & Hb);
    destruct (cleaned_state_row _ _ _ Hx) as (r & Hr & Hs & _ & _ & Ec & Ed);
    destruct (query_rows_zscores t r Hr) as (Hcv & Hdv & Hcn & Hdn).
  - rewrite Ec in Hz.
    destruct (Data.confirmed_cases_day r) as [v|] eqn:Ev;
      [|rewrite (Hcn eq_refl) in Hz; discriminate].
    rewrite (Hcv v eq_refl), Hs in Hz.
    destruct (sample_zscore_defined _ _ _ Hz) as (_ & Hsd & Ez).
    destruct (zscore_above _ _ _ Hsd Ez) as [Hup Hlo].
    exists r, v. repeat split; auto.
    destruct Hb as [Hb|Hb]; [left; now apply Hup|right; now apply Hlo].
  - rewrite Ed in Hz.
    destruct (Data.deaths_day r) as [v|] eqn:Ev;
      [|rewrite (Hdn eq_refl) in Hz; discriminate].
    rewrite (Hdv v eq_refl), Hs in Hz.
    destruct (sample_zscore_defined _ _ _ Hz) as (_ & Hsd & Ez).
    destruct (zscore_above _ _ _ Hsd Ez) as [Hup Hlo].
    exists r, v. repeat split; auto.
    destruct Hb as [Hb|Hb]; [left; now apply Hup|right; now apply Hlo].
Qed.

Lemma example_jump_deltas :
  state_cases_deltas example_jump "New York"
  = [0; 0; 0; 0; 0; 0; 0; 0; 0; 0; 11].
Proof. vm_compute. reflexivity. Qed.

Lemma example_jump_mean : mean [0; 0; 0; 0; 0; 0; 0; 0; 0; 0; 11] = 1%R.
Proof. unfold mean, Rsum. simpl. field. Qed.

Lemma example_jump_stddev :
  sample_stddev [0; 0; 0; 0; 0; 0; 0; 0; 0; 0; 11] = sqrt 11.
Proof.
  unfold sample_stddev, sum_sq_dev. rewrite example_jump_mean.
  unfold Rsum. simpl. f_equal. field.
Qed.

Lemma sqrt_11_bounds : (0 < sqrt 11 /\ 3 * sqrt 11 < 10)%R.
Proof.
  assert (H0 : (0 < sqrt 11)%R) by (apply sqrt_lt_R0; lra).
  assert (Hs : (sqrt 11 * sqrt 11 = 11)%R) by (apply sqrt_sqrt; lra).
  split; [exact H0|]. nra.
Qed.

Lemma example_jump_zscore :
  exists z, sample_zscore 11 [0; 0; 0; 0; 0; 0; 0; 0; 0; 0; 11] = Some z
            /\ (z > 3)%R.
Proof.
  destruct sqrt_11_bounds as [H0 H3].
  unfold sample_zscore. rewrite example_jump_stddev, example_jump_mean. simpl.
  destruct (Req_dec_T (sqrt 11) 0) as [E|_]; [lra|].
  eexists. split; [reflexivity|].
  apply Rlt_gt. apply (Rmult_lt_reg_r (sqrt 11)); [exact H0|].
  unfold Rdiv. rewrite Rmult_assoc, Rinv_l by lra. lra.
Qed.

Lemma outlier_is_three_sigma_witness :
  exists x r v,
    In x (outliers (state_data "New York" (clean (query_rows example_jump))))
    /\ In r (query_rows example_jump)
    /\ Data.confirmed_cases_day r = Some v
    /\ (IZR v - mean (state_cases_deltas example_jump "New York")
        > 3 * sample_stddev (state_cases_deltas example_jump "New York")
        \/ IZR v - mean (state_cases_deltas example_jump "New York")
           < -3 * sample_stddev (state_cases_deltas example_jump "New York"))%R.
Proof.
  set (d := Day.mk "New York" (mkDate 2020 3 12) 11 0 (Some 11) (Some 0)).
  set (r := select_row_value (us_states_day example_jump) d).
  set (c := Data.mk (Data.date r) (Data.state_name r)
                    (clip_lower0 (Data.confirmed_cases_day r))
                    (clip_lower0 (Data.deaths_day r))
                    (Data.confirmed_cases_day_zscore r)
                    (Data.deaths_day_zscore r)).
  set (x := Ny.mk c (to_period_M (Data.date c))).
  assert (Hr : In r (query_rows example_jump)).
  { apply query_rows_In. exists d. split; [|reflexivity]. vm_compute. tauto. }
  assert (Hx : In x (outliers (state_data "New York"
                                 (clean (query_rows example_jump))))).
  { apply filter_In. split.
    - apply state_data_In. exists c. split; [|split; reflexivity].
      apply clean_row. exists r. split; [exact Hr|reflexivity].
    - apply outlier_mask_spec.
      destruct example_jump_zscore as (z & Ez & Hz).
      exists z. split; [|now left].
      change (Ny_cases_zscore x) with (Data.confirmed_cases_day_zscore r).
      rewrite (proj1 (query_rows_zscores _ _ Hr) 11 eq_refl).
      change (Data.state_name r) with "New York"%string.
      now rewrite example_jump_deltas. }
  destruct (proj1 (outlier_is_three_sigma example_jump "New York") x Hx)
    as (r' & v & Hr' & _ & Hv & _ & _ & Hb).
  exists x, r', v. auto.
Defined.

Lemma insert_by_map {A B} (f : A -> B) (leb : A -> A -> bool)
      (leb' : B -> B -> bool) a l :
  (forall x y, leb' (f x) (f y) = leb x y) ->
  insert_by leb' (f a) (map f l) = map f (insert_by leb a l).
Proof.
  intros H. induction l as [|b l IH]; simpl; [reflexivity|].
  rewrite H. destruct (leb a b); simpl; [reflexivity|]. now rewrite IH.
Qed.

Lemma sort_by_map {A B} (f : A -> B) (leb : A -> A -> bool)
      (leb' : B -> B -> bool) l :
  (forall x y, leb' (f x) (f y) = leb x y) ->
  sort_by leb' (map f l) = map f (sort_by leb l).
Proof.
  intros H. induction l as [|a l IH]; simpl; [reflexivity|].
  rewrite IH. now apply insert_by_map.
Qed.

(** The slice of the cleaned table is the slice of the raw table with
    its deltas clipped. *)
Lemma state_data_clean s data :
  state_data s (clean data)
  = map (fun x => Ny.mk (Data.mk (Data.date (Ny.base x))
                                 (Data.state_name (Ny.base x))
                                 (clip_lower0 (Data.confirmed_cases_day (Ny.base x)))
                                 (clip_lower0 (Data.deaths_day (Ny.base x)))
                                 (Data.confirmed_cases_day_zscore (Ny.base x))
                                 (Data.deaths_day_zscore (Ny.base x)))
                        (Ny.month x))
        (state_data s data).
Proof.
  unfold state_data. rewrite clean_as_map, filter_map_comm. simpl.
  rewrite (sort_by_map _ (fun a b => date_leb (Data.date a) (Data.date b)))
    by reflexivity.
  rewrite !map_map. reflexivity.
Qed.

(** X19. Cleaning does not move any anomaly: the outlier selections on
    the cleaned slice mark the same dates with the same z-scores, in the
    same order, as they would on the uncleaned slice. *)
Theorem cleaning_keeps_outliers s data :
  map cases_point (outliers (state_data s (clean data)))
  = map cases_point (outliers (state_data s data))
  /\ map deaths_point (outliers_deaths (state_data s (clean data)))
     = map deaths_point (outliers_deaths (state_data s data)).
Proof.
  rewrite state_data_clean. unfold outliers, outliers_deaths.
  rewrite !filter_map_comm, !map_map. split; reflexivity.
Qed.

(** ** Monthly totals of a state *)

Lemma cleaned_slice s data :
  state_data s (clean data)
  = map (fun r => Ny.mk (Data.mk (Data.date r) (Data.state_name r)
                                 (clip_lower0 (Data.confirmed_cases_day r))
                                 (clip_lower0 (Data.deaths_day r))
                                 (Data.confirmed_cases_day_zscore r)
                                 (Data.deaths_day_zscore r))
                        (year (Data.date r), month (Data.date r)))
        (sort_by (fun a b => date_leb (Data.date a) (Data.date b))
                 (data_rows_of s data)).
Proof.
  rewrite state_data_clean. unfold state_data. rewrite map_map. reflexivity.
Qed.

Lemma cleaned_deaths_clip r :
  or_zero (clip_lower0 (Data.deaths_day r)) = cleaned_deaths r.
Proof.
  unfold cleaned_deaths. destruct (Data.deaths_day r) as [v|]; simpl;
    [|reflexivity].
  destruct (Z.ltb_spec v 0); lia.
Qed.

(** C6, as the code computes it. For the cleaned rows of any state whose
    cleaned daily death deltas add up to less than 2^63, the monthly
    table has one row per (year, month) in which the state has a
    record, in chronological order; each total is the sum of the
    cleaned death deltas of the state's records dated in that month,
    a negative delta and a missing delta counting 0; and the totals add
    up to the sum of all cleaned death deltas of the state. *)
Theorem monthly_totals_add_up s data :
  let rows := filter (fun r => String.eqb (Data.state_name r) s) data in
  let md := monthly_deaths (state_data s (clean data)) in
  Zsum (map cleaned_deaths rows) < 2 ^ 63 ->
  NoDup (map fst md)
  /\ Sorted (fun a b => period_leb a b = true) (map fst md)
  /\ (forall y mo, In (y, mo) (map fst md) <->
        exists r, In r data /\ Data.state_name r = s
                  /\ year (Data.date r) = y /\ month (Data.date r) = mo)
  /\ (forall m total, In (m, total) md ->
        total = Zsum (map cleaned_deaths (filter (in_month m) rows)))
  /\ Zsum (map snd md) = Zsum (map cleaned_deaths rows).
Proof.
  intros rows md Hlt.
  set (ny := state_data s (clean data)) in *.
  set (sorted := sort_by (fun a b => date_leb (Data.date a) (Data.date b)) rows).
  assert (Eny : ny = map (fun r => Ny.mk
                     (Data.mk (Data.date r) (Data.state_name r)
                              (clip_lower0 (Data.confirmed_cases_day r))
                              (clip_lower0 (Data.deaths_day r))
                              (Data.confirmed_cases_day_zscore r)
                              (Data.deaths_day_zscore r))
                     (year (Data.date r), month (Data.date r))) sorted)
    by apply cleaned_slice.
  assert (Hperm : Permutation sorted rows) by apply sort_by_perm.
  assert (Hnn : forall x, In x ny -> 0 <= or_zero (Ny_deaths_day x))
    by (intros x; apply cleaned_slice_nonneg).
  assert (Htot : Zsum (map (fun x => or_zero (Ny_deaths_day x)) ny)
                 = Zsum (map cleaned_deaths rows)).
  { rewrite Eny, map_map. unfold Ny_deaths_day. simpl.
    rewrite (map_ext _ cleaned_deaths) by apply cleaned_deaths_clip.
    apply Zsum_perm, Permutation_map, Hperm. }
  assert (Hb : Zsum (map (fun x => or_zero (Ny_deaths_day x)) ny) < 2 ^ 63)
    by (rewrite Htot; exact Hlt).
  assert (Hmd : md = map (fun m => (m, Zsum (map (fun x => or_zero (Ny_deaths_day x))
                                                 (month_group m ny))))
                         (sort_by period_leb (unique period_eqb (map Ny.month ny))))
    by apply (monthly_deaths_exact ny Hnn Hb).
  assert (Hkeys : map fst md
                  = sort_by period_leb (unique period_eqb (map Ny.month ny)))
    by apply monthly_deaths_months.
  assert (Hnd : NoDup (sort_by period_leb (unique period_eqb (map Ny.month ny)))).
  { eapply Permutation_NoDup; [symmetry; apply sort_by_perm|].
    apply unique_NoDup, period_eqb_spec. }
  assert (Hgroup : forall m,
             Zsum (map (fun x => or_zero (Ny_deaths_day x)) (month_group m ny))
             = Zsum (map cleaned_deaths (filter (in_month m) rows))).
  { intros m. unfold month_group.
    rewrite Eny, filter_map_comm, map_map. simpl.
    unfold Ny_deaths_day. simpl.
    rewrite (map_ext _ cleaned_deaths) by apply cleaned_deaths_clip.
    apply Zsum_perm, Permutation_map.
    apply (Permutation_filter (in_month m)), Hperm. }
  rewrite Hkeys. split; [exact Hnd|].
  split; [apply sort_by_sorted, period_leb_total|]. split; [|split].
  - intros y mo. rewrite sort_by_In, (unique_In period_eqb period_eqb_spec).
    rewrite Eny, map_map. simpl. rewrite in_map_iff. split.
    + intros (r & [= <- <-] & Hr).
      apply (Permutation_in _ Hperm) in Hr. apply filter_In in Hr as [Hr Hs].
      exists r. repeat split; auto. now apply String.eqb_eq.
    + intros (r & Hr & Hs & <- & <-). exists r. split; [reflexivity|].
      apply (Permutation_in _ (Permutation_sym Hperm)).
      apply filter_In. split; [exact Hr|]. now apply String.eqb_eq.
  - intros m total Hin. rewrite Hmd in Hin.
    apply in_map_iff in Hin as (m' & [= -> <-] & _). apply Hgroup.
  - rewrite Hmd, map_map. simpl. rewrite <- Htot.
    apply (group_sums_total period_eqb Ny.month
             (fun r => or_zero (Ny_deaths_day r)) period_eqb_spec).
    + exact Hnd.
    + intros x Hx. apply sort_by_In.
      apply unique_In; [apply period_eqb_spec|]. now apply in_map.
Qed.

Lemma monthly_totals_add_up_witness :
  Zsum (map cleaned_deaths
            (filter (fun r => String.eqb (Data.state_name r) "New York")
                    (query_rows example_ny))) < 2 ^ 63
  /\ (forall m total,
        In (m, total) (monthly_deaths
                         (state_data "New York" (clean (query_rows example_ny)))) ->
        total = Zsum (map cleaned_deaths
                          (filter (in_month m)
                             (filter (fun r => String.eqb (Data.state_name r)
                                                          "New York")
                                     (query_rows example_ny)))))
  /\ Zsum (map snd (monthly_deaths
                      (state_data "New York" (clean (query_rows example_ny)))))
     = 12.
Proof.
  assert (E : Zsum (map cleaned_deaths
                        (filter (fun r => String.eqb (Data.state_name r)
                                                     "New York")
                                (query_rows example_ny))) = 12)
    by (cbv - [zscore_value]; reflexivity).
  assert (H : Zsum (map cleaned_deaths
                        (filter (fun r => String.eqb (Data.state_name r)
                                                     "New York")
                                (query_rows example_ny))) < 2 ^ 63)
    by (rewrite E; reflexivity).
  split; [exact H|].
  destruct (monthly_totals_add_up "New York" (query_rows example_ny) H)
    as (_ & _ & _ & Hm & Ht).
  split; [exact Hm|]. rewrite <- E. exact Ht.
Defined.

(** C6 as worded fails beyond the 64-bit range: on a month whose cleaned
    death deltas are 6 * 10^18, 0 and 6 * 10^18 the monthly total wraps
    to a negative number and is not their sum. *)
Lemma monthly_total_wraps_counterexample :
  monthly_deaths (state_data "New York" (clean (query_rows example_overflow)))
  = [((2020, 3), -6446744073709551616)]
  /\ Zsum (map cleaned_deaths
               (filter (in_month (2020, 3))
                  (filter (fun r => String.eqb (Data.state_name r) "New York")
                          (query_rows example_overflow))))
     = 12000000000000000000
  /\ -6446744073709551616 <> 12000000000000000000.
Proof.
  split; [cbv - [zscore_value]; reflexivity|].
  split; [cbv - [zscore_value]; reflexivity|discriminate].
Qed.
